(** * early-pulse/ai-chatbot: the chat and routine pipelines

    A shallow embedding of the server (the two chat endpoints and their
    inline clean-up of the model's text) and of the routine router
    (validation, fence stripping, strict parsing, upsert), with the
    properties the specification states about them. *)

From Stdlib Require Import List Arith NArith Bool String Ascii Lia QArith.
From Stdlib Require Import Wf_nat DecimalString.
Import ListNotations.
Open Scope N_scope.

(** ** JavaScript strings

    A JavaScript string is a sequence of UTF-16 code units; [length],
    the regular expressions without the [u] flag and [split] all work on
    code units, so that the bullet U+2022 is one element. *)

Definition jsstring := list N.

(** An ASCII literal as a JavaScript string. *)
Definition js (s : string) : jsstring :=
  map N_of_ascii (list_ascii_of_string s).

Definition nl : jsstring := [10].
Definition dq : jsstring := [34].

Fixpoint str_eqb (a b : jsstring) : bool :=
  match a, b with
  | [], [] => true
  | x :: a', y :: b' => (x =? y) && str_eqb a' b'
  | _, _ => false
  end.

Definition isEmpty (s : jsstring) : bool :=
  match s with [] => true | _ :: _ => false end.

(** [String.prototype.startsWith]. *)
Fixpoint startsWith (p s : jsstring) : bool :=
  match p, s with
  | [], _ => true
  | x :: p', y :: s' => (x =? y) && startsWith p' s'
  | _ :: _, [] => false
  end.

(** The class [\s] of a regular expression, which is also what [trim]
    removes: WhiteSpace and LineTerminator of ECMAScript. *)
Definition isWhiteSpace (c : N) : bool :=
  ((9 <=? c) && (c <=? 13)) || (c =? 32) || (c =? 160) || (c =? 5760)
  || ((8192 <=? c) && (c <=? 8202)) || (c =? 8232) || (c =? 8233)
  || (c =? 8239) || (c =? 8287) || (c =? 12288) || (c =? 65279).

Fixpoint trimStart (s : jsstring) : jsstring :=
  match s with
  | [] => []
  | c :: t => if isWhiteSpace c then trimStart t else s
  end.

Fixpoint trimEnd (s : jsstring) : jsstring :=
  match s with
  | [] => []
  | c :: t =>
      match trimEnd t with
      | [] => if isWhiteSpace c then [] else [c]
      | t' => c :: t'
      end
  end.

(** [String.prototype.trim]. *)
Definition trim (s : jsstring) : jsstring := trimEnd (trimStart s).

(** [s.split(sep)] for a separator of one code unit. *)
Fixpoint split (sep : N) (s : jsstring) : list jsstring :=
  match s with
  | [] => [[]]
  | c :: t =>
      if c =? sep then [] :: split sep t
      else match split sep t with
           | l :: ls => (c :: l) :: ls
           | [] => [[c]]
           end
  end.

(** [a.join(sep)]. *)
Fixpoint join (sep : jsstring) (a : list jsstring) : jsstring :=
  match a with
  | [] => []
  | [x] => x
  | x :: rest => x ++ sep ++ join sep rest
  end.

(** ** The clean-up of the model's text (index.js, both chat endpoints)

    Each regular expression of the pipeline is written as the function
    it computes on code units. *)

Module Normalizer.

Definition star : N := 42.
Definition hash : N := 35.
Definition dash : N := 45.
Definition bullet : N := 8226.
Definition space : N := 32.

(** [.replace(/\*\*/g, "")]: every non-overlapping pair, left to right. *)
Fixpoint removeBold (s : jsstring) : jsstring :=
  match s with
  | [] => []
  | a :: t =>
      match t with
      | b :: t' =>
          if (a =? star) && (b =? star) then removeBold t'
          else a :: removeBold t
      | [] => [a]
      end
  end.

(** [.replace(/\*/g, "")]. *)
Definition removeItalics (s : jsstring) : jsstring :=
  filter (fun c => negb (c =? star)) s.

Definition isBulletChar (c : N) : bool :=
  (c =? dash) || (c =? bullet) || (c =? star).

(** [.replace(/^[-•*]\s*/, "")]. *)
Definition removeBullet (s : jsstring) : jsstring :=
  match s with
  | c :: t => if isBulletChar c then trimStart t else s
  | [] => []
  end.

Fixpoint dropHashes (s : jsstring) : jsstring :=
  match s with
  | [] => []
  | c :: t => if c =? hash then dropHashes t else s
  end.

(** [.replace(/^#+\s*/, "")]. *)
Definition removeHeader (s : jsstring) : jsstring :=
  match s with
  | c :: t => if c =? hash then trimStart (dropHashes t) else s
  | [] => []
  end.

(** [.replace(/\s+/g, " ")]: of a run of white space only its last
    element produces the single space. *)
Fixpoint normalizeSpaces (s : jsstring) : jsstring :=
  match s with
  | [] => []
  | c :: t =>
      if isWhiteSpace c then
        match t with
        | d :: _ => if isWhiteSpace d then normalizeSpaces t
                    else space :: normalizeSpaces t
        | [] => [space]
        end
      else c :: normalizeSpaces t
  end.

(** The body of the [.map((point) => ...)] callback. *)
Definition cleanPoint (point : jsstring) : jsstring :=
  trim (normalizeSpaces (removeHeader (removeBullet
    (removeItalics (removeBold point))))).

Definition isSeparatorChar (c : N) : bool :=
  (c =? 58) || (c =? hash) || (c =? dash) || (c =? 61).

(** [point.match(/^[:#\-=]/)] as a truth value. *)
Definition matchesSeparator (point : jsstring) : bool :=
  match point with
  | c :: _ => isSeparatorChar c
  | [] => false
  end.

(** [point.length > 10]. *)
Definition longEnough (point : jsstring) : bool :=
  (10 <? N.of_nat (List.length point)).

(** The [points] pipeline, from [text.split("\n")] to the last filter. *)
Definition points (text : jsstring) : list jsstring :=
  filter longEnough
    (filter (fun point => negb (isEmpty point) && negb (matchesSeparator point))
       (map cleanPoint
          (filter (fun line => negb (isEmpty (trim line)))
             (split 10 text)))).

(** The two asterisk replacements of the callback, read as one. *)
Definition removeStars (l : jsstring) : jsstring :=
  filter (fun c => negb (c =? star)) l.

(** The callback with [removeStars] for its first two steps. *)
Definition cleanFused (l : jsstring) : jsstring :=
  trim (normalizeSpaces (removeHeader (removeBullet (removeStars l)))).

(** *** The algorithm as the specification words it

    Split on line breaks; per line strip the emphasis markers, the
    leading bullet markers, the leading heading markers, collapse white
    space and trim; discard what is empty, made only of separator
    characters, or of length at most 10. *)

Definition spec_strip_emphasis (l : jsstring) : jsstring :=
  filter (fun c => negb (c =? star)) l.

Definition startsWithBullet (l : jsstring) : bool :=
  match l with
  | c :: _ => isBulletChar c
  | [] => false
  end.

Definition startsWithHash (l : jsstring) : bool :=
  match l with
  | c :: _ => c =? hash
  | [] => false
  end.

(** The bullet markers in front of the text, with the white space around
    them. *)
Fixpoint dropMarkers (l : jsstring) : jsstring :=
  match l with
  | [] => []
  | c :: t => if isBulletChar c || isWhiteSpace c then dropMarkers t else l
  end.

(** "strip leading bullet markers": a line whose text is led by bullet
    markers loses all of them, wherever the first one stands. *)
Definition spec_strip_bullets (l : jsstring) : jsstring :=
  if startsWithBullet (trimStart l) then dropMarkers l else l.

(** "strip leading heading markers (#+)". *)
Definition spec_strip_headings (l : jsstring) : jsstring :=
  if startsWithHash (trimStart l)
  then trimStart (dropHashes (trimStart l))
  else l.

Definition spec_clean (l : jsstring) : jsstring :=
  trim (normalizeSpaces (spec_strip_headings (spec_strip_bullets
    (spec_strip_emphasis l)))).

(** "consist solely of separator/punctuation characters". *)
Definition onlySeparators (p : jsstring) : bool :=
  forallb isSeparatorChar p.

Definition spec_discard (p : jsstring) : bool :=
  isEmpty p || onlySeparators p || (N.of_nat (List.length p) <=? 10).

Definition normalize_spec (text : jsstring) : list jsstring :=
  filter (fun p => negb (spec_discard p)) (map spec_clean (split 10 text)).







End Normalizer.

Import Normalizer.

(** ** JSON values

    What [express.json()] hands to the routes and what [JSON.parse]
    returns.  A number is kept as a rational: the routes only test its
    truthiness and its type, and print it. *)

#[local] Set Warnings "-register-all".

Inductive JSON : Type :=
| JNull
| JBool (b : bool)
| JNum (q : Q)
| JStr (s : jsstring)
| JArr (items : list JSON)
| JObj (fields : list (jsstring * JSON)).

(** ToBoolean, on a property that may be absent ([undefined]). *)
Definition truthy (v : option JSON) : bool :=
  match v with
  | None | Some JNull => false
  | Some (JBool b) => b
  | Some (JNum q) => negb (Qeq_bool q 0)
  | Some (JStr s) => negb (isEmpty s)
  | Some (JArr _) | Some (JObj _) => true
  end.

(** ToBoolean of a value that is a string when present. *)
Definition truthyText (v : option jsstring) : bool :=
  match v with
  | Some s => negb (isEmpty s)
  | None => false
  end.

Definition textOf (v : option jsstring) : jsstring :=
  match v with
  | Some s => s
  | None => js "undefined"
  end.

(** [Array.isArray]. *)
Definition isArray (v : option JSON) : bool :=
  match v with
  | Some (JArr _) => true
  | _ => false
  end.

Definition arrayItems (v : option JSON) : list JSON :=
  match v with
  | Some (JArr items) => items
  | _ => []
  end.

(** [typeof t === "string"]. *)
Definition isString (v : JSON) : bool :=
  match v with
  | JStr _ => true
  | _ => false
  end.

Definition stringOf (v : JSON) : jsstring :=
  match v with
  | JStr s => s
  | _ => []
  end.

(** [Object.hasOwn(o, key)] on a parsed object. *)
Definition hasOwn (key : jsstring) (fields : list (jsstring * JSON)) : bool :=
  existsb (fun f => str_eqb (fst f) key) fields.

(** The values that a template literal cannot print: an object with a
    key [toString] of its own, or an array that holds such a value. *)
Fixpoint unprintable (v : JSON) : bool :=
  match v with
  | JObj fields => hasOwn (js "toString") fields
  | JArr items => existsb unprintable items
  | _ => false
  end.

(** ** The collaborators

    The generative model, the clock, the store's availability and the
    built-ins of the JavaScript runtime that the code calls.  The model
    and the clock answer from a state of their own. *)

Record Part : Type := mkPart {
  text : option jsstring;
  inlineData : option (jsstring * jsstring)   (* data, mimeType *)
}.

Definition textPart (s : jsstring) : Part :=
  {| text := Some s; inlineData := None |}.

Inductive GenResult : Type :=
| GenOk (reply : jsstring)       (* result.response.text() *)
| GenErr (message : jsstring).   (* the call, or text(), threw *)

Class Runtime : Type := {
  World : Type;
  (** [model.generateContent] on the parts of one user turn *)
  generateContent : list Part -> World -> GenResult * World;
  (** [new Date()], in milliseconds *)
  currentTime : World -> N * World;
  (** whether the store refuses the next operation, and with what message *)
  storeFault : World -> option jsstring * World;
  (** [String.prototype.toLowerCase] *)
  toLowerCase : jsstring -> jsstring;
  (** [Number.prototype.toString] *)
  numberToString : Q -> jsstring;
  (** the message of the [TypeError] that the engine throws when an object
      has no primitive value *)
  typeErrorMessage : jsstring;
  (** [JSON.parse]; [None] when it throws *)
  JSON_parse : jsstring -> option JSON;
  (** [Buffer.from(bytes).toString("base64")] *)
  base64 : list N -> jsstring
}.

(** ** The routine collection (src/models/Routine.js) *)

Record RoutineDoc : Type := mkRoutine {
  userId : jsstring;
  routine : list jsstring;
  createdAt : N;
  updatedAt : N
}.

(** Modelled from the spec: the store's [findOneAndUpdate] with
    [upsert: true, new: true], which is Mongoose's and not part of the
    sources.  The first document of the user gets its [routine] replaced
    and its [updatedAt] set, and keeps everything else; when there is
    none, a document is created with [createdAt] set to now, the
    default of the schema. The document after the write is returned.
    The [pre('save')] hook of the schema does not run on this path. *)
Fixpoint findOneAndUpdate (uid : jsstring) (tasks : list jsstring) (now : N)
    (coll : list RoutineDoc) : RoutineDoc * list RoutineDoc :=
  match coll with
  | [] =>
      let d := {| userId := uid; routine := tasks;
                  createdAt := now; updatedAt := now |} in
      (d, [d])
  | d :: rest =>
      if str_eqb (userId d) uid then
        let d' := {| userId := userId d; routine := tasks;
                     createdAt := createdAt d; updatedAt := now |} in
        (d', d' :: rest)
      else
        let (r, rest') := findOneAndUpdate uid tasks now rest in
        (r, d :: rest')
  end.

(** The collections that the routine generator can have written: it is
    the only writer, and it never deletes. *)
Inductive Upserted : list RoutineDoc -> Prop :=
| Upserted_empty : Upserted []
| Upserted_write (uid : jsstring) (tasks : list jsstring) (now : N)
    (coll : list RoutineDoc) :
    Upserted coll -> Upserted (snd (findOneAndUpdate uid tasks now coll)).

(** The documents of one user. *)
Definition docsOf (uid : jsstring) (coll : list RoutineDoc) : list RoutineDoc :=
  filter (fun d => str_eqb (userId d) uid) coll.

(** ** Responses

    The status and the fields of the JSON body.  The timestamp of a chat
    response is kept as the [Date] that [toISOString] prints. *)

Inductive Response : Type :=
| Failure (status : N) (error : jsstring) (details : option jsstring)
| ChatSuccess (points : list jsstring) (timestamp : N)
| RoutineSuccess (routine : list jsstring) (createdAt updatedAt : N).

Definition MissingMessage : Response :=
  Failure 400 (js "Message is required") None.

Definition MissingInput : Response :=
  Failure 400 (js "Please provide either text or an image.") None.

Definition OutOfDomain : Response :=
  Failure 400
    (js "I am designed to assist with health-related queries only. Please ask questions about health, medicine, wellness, or medical topics.")
    None.

Definition GenerationFailure (message : jsstring) : Response :=
  Failure 500 (js "Failed to get response from Gemini API") (Some message).

Definition ImageProcessingFailure : Response :=
  Failure 500 (js "Failed to process image file.")
    (Some (js "Could not read image file.")).

Definition MissingUserId : Response :=
  Failure 400 (js "User ID is required") None.

Definition AnswerCountMismatch : Response :=
  Failure 400 (js "Please provide answers for all questions") None.

Definition MalformedRoutineOutput : Response :=
  Failure 500 (js "Failed to generate routine")
    (Some (js "Invalid response format from AI model")).

Definition RoutineGenerationFailure (message : jsstring) : Response :=
  Failure 500 (js "Failed to generate routine") (Some message).

Definition SaveFailure (message : jsstring) : Response :=
  Failure 500 (js "Failed to save routine") (Some message).

Definition MissingUserIdInBody : Response :=
  Failure 400 (js "User ID is required in the request body") None.

Definition NotFound : Response :=
  Failure 404 (js "No routine found for this user") None.

Definition FetchFailure (message : jsstring) : Response :=
  Failure 500 (js "Failed to fetch routine") (Some message).

(** Modelled from the spec: the store's [findOne(...).sort({updatedAt: -1})],
    which is Mongoose's: the most recently updated of the documents of the
    user, [None] when there is none.  Among documents of the same
    [updatedAt] the one that comes first in the collection is taken. *)
Fixpoint mostRecent (docs : list RoutineDoc) : option RoutineDoc :=
  match docs with
  | [] => None
  | d :: rest =>
      match mostRecent rest with
      | Some e => if updatedAt d <? updatedAt e then Some e else Some d
      | None => Some d
      end
  end.

Definition findOneLatest (uid : jsstring) (coll : list RoutineDoc)
    : option RoutineDoc :=
  mostRecent (docsOf uid coll).

(** ** The filter of the uploads (index.js, [multer({fileFilter})])

    [/\.(jpg|jpeg|png|gif)$/i] on the original name.  The pattern has
    ASCII characters only and no [u] flag: a code unit matches a letter of
    the pattern when it is that letter in either case. *)

Definition upperAscii (c : N) : N :=
  if (97 <=? c) && (c <=? 122) then c - 32 else c.

Definition sameIgnoringCase (p c : N) : bool :=
  (c <? 128) && (upperAscii c =? upperAscii p).

(** The rest of the string is [pat], in any case, up to its end. *)
Fixpoint matchesToEnd (pat s : jsstring) : bool :=
  match pat, s with
  | [], [] => true
  | p :: pat', c :: s' => sameIgnoringCase p c && matchesToEnd pat' s'
  | _, _ => false
  end.

Definition imageExtensions : list jsstring :=
  [js "jpg"; js "jpeg"; js "png"; js "gif"].

(** The pattern matches from the first code unit of [s]. *)
Definition extensionHere (s : jsstring) : bool :=
  match s with
  | c :: rest =>
      (c =? 46) && existsb (fun e => matchesToEnd e rest) imageExtensions
  | [] => false
  end.

(** [originalname.match(...)] as a truth value: a match from some
    position. *)
Fixpoint matchesImageName (s : jsstring) : bool :=
  extensionHere s
  || match s with
     | [] => false
     | _ :: t => matchesImageName t
     end.

(** The [fileFilter] callback: the error it passes on, or [None] when it
    accepts the file. *)
Definition fileFilter (originalname : jsstring) : option jsstring :=
  if negb (matchesImageName originalname)
  then Some (js "Only image files are allowed!")
  else None.

(** ** Prompts and fixed texts *)

Definition indent : jsstring := js "          ".

(** The template of [isHealthRelated]. *)
Definition classificationPrompt (message : jsstring) : jsstring :=
  js "Determine if this message is related to healthcare, medicine, wellness, or health. Only respond with 'true' or 'false': "
  ++ dq ++ message ++ dq.

(** The instruction wrapped around a text query, in both endpoints. *)
Definition queryPrompt (message : jsstring) : jsstring :=
  js "Please provide a response to this health-related query in the following format:" ++ nl
  ++ indent ++ js "- Each main point should be a separate, complete sentence" ++ nl
  ++ indent ++ js "- If there are related subpoints, include them in the same sentence using appropriate connecting words (and, additionally, moreover, including, such as, etc.)" ++ nl
  ++ indent ++ js "- Do not use bullet points, markdown, or special formatting" ++ nl
  ++ indent ++ js "- Each point should be on a new line" ++ nl
  ++ indent ++ js "- Keep the points concise but informative" ++ nl
  ++ indent ++ js "Query: " ++ message.

(** The instruction put in front of an image sent without text. *)
Definition imagePrompt : jsstring :=
  js "Please analyze this image and provide observations in the following format:" ++ nl
  ++ indent ++ js "- Each main point should be a separate, complete sentence" ++ nl
  ++ indent ++ js "- If there are related details, include them in the same sentence using appropriate connecting words" ++ nl
  ++ indent ++ js "- Do not use bullet points, markdown, or special formatting" ++ nl
  ++ indent ++ js "- Each point should be on a new line" ++ nl
  ++ indent ++ js "- Keep the points concise but informative".

(** [routineQuestions] of the routine router. *)
Definition routineQuestions : list jsstring :=
  [ js "What time do you usually wake up in the morning?";
    js "What time do you usually go to bed at night?";
    js "Do you have any specific health conditions or concerns?";
    js "What is your current activity level? (sedentary, light, moderate, very active)";
    js "What are your main health and wellness goals?";
    js "Do you have any dietary restrictions or preferences?";
    js "How much time can you dedicate to exercise daily?";
    js "Do you have any specific stress management needs?";
    js "What is your work schedule like?";
    js "Do you have any specific sleep issues or requirements?" ].

Definition fence : jsstring := js "```".

(** [raw.replace(/^```(?:json)?\s*/, "")]. *)
Definition removeOpeningFence (raw : jsstring) : jsstring :=
  if startsWith fence raw then
    let rest := skipn 3 raw in
    trimStart (if startsWith (js "json") rest then skipn 4 rest else rest)
  else raw.

(** Whether [\s*```$] matches the whole of [s]: white space and
    backticks are disjoint, so the star takes all the white space. *)
Definition closingFenceHere (s : jsstring) : bool :=
  str_eqb (trimStart s) fence.

(** [raw.replace(/\s*```$/, "")]: the leftmost position from which the
    rest of the string is white space and the fence. *)
Fixpoint removeClosingFence (raw : jsstring) : jsstring :=
  if closingFenceHere raw then []
  else match raw with
       | [] => []
       | c :: t => c :: removeClosingFence t
       end.

(** The fence handling of the generate route, from [response.text()]. *)
Definition stripFences (reply : jsstring) : jsstring :=
  let raw := trim reply in
  if startsWith fence raw
  then removeClosingFence (removeOpeningFence raw)
  else raw.

Section Server.

Context {R : Runtime}.

(** Every element of a list of results, when none has failed. *)
Fixpoint allSome {A : Type} (l : list (option A)) : option (list A) :=
  match l with
  | [] => Some []
  | Some x :: rest =>
      match allSome rest with
      | Some xs => Some (x :: xs)
      | None => None
      end
  | None :: _ => None
  end.

(** The string a template literal makes of a value; [None] when the
    conversion throws a [TypeError].  An object parsed from JSON prints
    through [Object.prototype.toString], unless a key [toString] of its
    own hides that method: its value is not callable, [valueOf] gives no
    primitive, and the conversion throws.  An array prints its elements
    joined by commas, [null] as the empty string. *)
Fixpoint ToString (v : JSON) : option jsstring :=
  match v with
  | JNull => Some (js "null")
  | JBool true => Some (js "true")
  | JBool false => Some (js "false")
  | JNum q => Some (numberToString q)
  | JStr s => Some s
  | JArr items =>
      option_map (join (js ","))
        (allSome
           (map (fun x => match x with JNull => Some [] | _ => ToString x end)
              items))
  | JObj fields =>
      if hasOwn (js "toString") fields then None
      else Some (js "[object Object]")
  end.

Definition ToStringOpt (v : option JSON) : option jsstring :=
  match v with
  | Some x => ToString x
  | None => Some (js "undefined")
  end.

(** [routineQuestions.map((question, index) => ...).join("\n\n")]; [None]
    when a template literal throws. *)
Definition formattedAnswers (answers : list JSON) : option jsstring :=
  option_map (join (nl ++ nl))
    (allSome
       (map (fun qi : nat * jsstring =>
               option_map
                 (fun a => js "Q: " ++ snd qi ++ nl ++ js "A: " ++ a)
                 (ToStringOpt (nth_error answers (fst qi))))
          (combine (seq 0 (List.length routineQuestions)) routineQuestions))).

Definition promptText (answers : list JSON) : option jsstring :=
  option_map
    (fun formatted =>
       js "You are Dr. Early Pulse, a wellness expert. "
       ++ js "Based on the user's answers, generate a personalized list of daily tasks. "
       ++ js "Output **only** a JSON array of strings, e.g. ["
       ++ dq ++ js "Wake up at 6:30 AM" ++ dq ++ js "," ++ dq ++ js "Drink water" ++ dq
       ++ js "," ++ dq ++ js "..." ++ dq ++ js "]. "
       ++ js "Do not wrap it in any extra text or markdown." ++ nl ++ nl
       ++ js "User's answers:" ++ nl
       ++ formatted)
    (formattedAnswers answers).

(** [JSON.parse(raw)] with the check that follows it; [None] is the
    [catch] branch. *)
Definition parseTasks (raw : jsstring) : option (list jsstring) :=
  match JSON_parse raw with
  | Some (JArr items) =>
      if forallb isString items then Some (map stringOf items) else None
  | _ => None
  end.

Definition parseRoutine (reply : jsstring) : option (list jsstring) :=
  parseTasks (stripFences reply).

(** *** State and effects *)

Record File : Type := mkFile {
  path : jsstring;
  mimetype : jsstring
}.

Record State : Type := mkState {
  world : World;
  calls : list (list Part);              (* requests sent to the model *)
  routines : list RoutineDoc;            (* the Routine collection *)
  uploads : list (jsstring * list N)     (* the files of the uploads directory *)
}.

Definition M (A : Type) : Type := State -> A * State.

Definition ret {A : Type} (a : A) : M A := fun st => (a, st).

Definition bind {A B : Type} (c : M A) (k : A -> M B) : M B :=
  fun st => let (a, st') := c st in k a st'.

Notation "x <- c ;; k" := (bind c (fun x => k))
  (at level 61, c at next level, right associativity).
Notation "c ;;; k" := (bind c (fun _ => k))
  (at level 61, right associativity).

(** [await model.generateContent({contents: [{role: "user", parts}]})]. *)
Definition callModel (parts : list Part) : M GenResult :=
  fun st =>
    let (r, w) := generateContent parts (world st) in
    (r, {| world := w; calls := calls st ++ [parts];
           routines := routines st; uploads := uploads st |}).

Definition newDate : M N :=
  fun st =>
    let (t, w) := currentTime (world st) in
    (t, {| world := w; calls := calls st;
           routines := routines st; uploads := uploads st |}).

Definition storeCheck : M (option jsstring) :=
  fun st =>
    let (f, w) := storeFault (world st) in
    (f, {| world := w; calls := calls st;
           routines := routines st; uploads := uploads st |}).

Definition upsertRoutine (uid : jsstring) (tasks : list jsstring) (now : N)
    : M RoutineDoc :=
  fun st =>
    let (d, coll) := findOneAndUpdate uid tasks now (routines st) in
    (d, {| world := world st; calls := calls st;
           routines := coll; uploads := uploads st |}).

Fixpoint readFile (p : jsstring) (files : list (jsstring * list N))
    : option (list N) :=
  match files with
  | [] => None
  | (q, bytes) :: rest => if str_eqb q p then Some bytes else readFile p rest
  end.

(** [if (fs.existsSync(p)) fs.unlinkSync(p)]. *)
Definition unlinkIfExists (p : jsstring) : M unit :=
  fun st =>
    (tt, {| world := world st; calls := calls st; routines := routines st;
            uploads := filter (fun e => negb (str_eqb (fst e) p)) (uploads st) |}).

Definition cleanUp (imageFile : option File) : M unit :=
  match imageFile with
  | Some f => unlinkIfExists (path f)
  | None => ret tt
  end.

(** [fileToGenerativePart]; [None] when it throws. *)
Definition fileToGenerativePart (f : File) : M (option Part) :=
  fun st =>
    match readFile (path f) (uploads st) with
    | Some bytes =>
        (Some {| text := None;
                 inlineData := Some (base64 bytes, mimetype f) |}, st)
    | None => (None, st)
    end.

(** *** The domain classifier *)

Definition isHealthRelated (message : jsstring) : M bool :=
  r <- callModel [textPart (classificationPrompt message)] ;;
  match r with
  | GenOk reply => ret (str_eqb (trim (toLowerCase reply)) (js "true"))
  | GenErr _ => ret false
  end.

(** *** POST /api/chat

    [message] is the string of the body, or absent. *)

Definition chat (message : option jsstring) : M Response :=
  if negb (truthyText message) then ret MissingMessage
  else
    healthRelated <- isHealthRelated (textOf message) ;;
    if negb healthRelated then ret OutOfDomain
    else
      r <- callModel [textPart (queryPrompt (textOf message))] ;;
      match r with
      | GenErr e => ret (GenerationFailure e)
      | GenOk reply =>
          t <- newDate ;;
          ret (ChatSuccess (points reply) t)
      end.

(** *** POST /api/chat-with-image *)

(** [parts[0].text = s]. *)
Definition setFirstText (s : jsstring) (parts : list Part) : list Part :=
  match parts with
  | p :: rest => {| text := Some s; inlineData := inlineData p |} :: rest
  | [] => []
  end.

Definition hasFile (imageFile : option File) : bool :=
  match imageFile with
  | Some _ => true
  | None => false
  end.

Definition chatWithImage (userText : option jsstring) (imageFile : option File)
    : M Response :=
  if negb (truthyText userText) && negb (hasFile imageFile)
  then ret MissingInput
  else
    healthRelated <-
      (if truthyText userText then isHealthRelated (textOf userText)
       else ret true) ;;
    if negb healthRelated then cleanUp imageFile ;;; ret OutOfDomain
    else
      let parts :=
        if truthyText userText then [textPart (textOf userText)] else [] in
      withImage <-
        match imageFile with
        | None => ret (Some parts)
        | Some f =>
            imagePart <- fileToGenerativePart f ;;
            match imagePart with
            | Some p => ret (Some (parts ++ [p]))
            | None => unlinkIfExists (path f) ;;; ret None
            end
        end ;;
      match withImage with
      | None => ret ImageProcessingFailure
      | Some parts =>
          let parts :=
            if truthyText userText
            then setFirstText (queryPrompt (textOf userText)) parts
            else textPart imagePrompt :: parts in
          r <- callModel parts ;;
          response <-
            match r with
            | GenErr e => ret (GenerationFailure e)
            | GenOk reply =>
                t <- newDate ;;
                ret (ChatSuccess (points reply) t)
            end ;;
          cleanUp imageFile ;;;
          ret response
      end.

(** *** POST /api/v1/routine/generate

    [userId] is taken at the type the schema gives it, a string; the
    answers are any JSON value, as the route tests their shape.  A
    [TypeError] of a template literal of the prompt is caught by the
    outer [catch], as a failure of the model is. *)

Definition generate (userId : option jsstring) (answers : option JSON)
    : M Response :=
  if negb (truthyText userId) then ret MissingUserId
  else if negb (truthy answers) || negb (isArray answers)
          || negb (Nat.eqb (List.length (arrayItems answers))
                           (List.length routineQuestions))
  then ret AnswerCountMismatch
  else
    match promptText (arrayItems answers) with
    | None => ret (RoutineGenerationFailure typeErrorMessage)
    | Some prompt =>
        r <- callModel [textPart prompt] ;;
        match r with
        | GenErr e => ret (RoutineGenerationFailure e)
        | GenOk reply =>
            match parseRoutine reply with
            | None => ret MalformedRoutineOutput
            | Some routineTasks =>
                now <- newDate ;;
                fault <- storeCheck ;;
                match fault with
                | Some e => ret (SaveFailure e)
                | None =>
                    routineDoc <-
                      upsertRoutine (textOf userId) routineTasks now ;;
                    ret (RoutineSuccess (routine routineDoc)
                           (createdAt routineDoc) (updatedAt routineDoc))
                end
            end
        end
    end.

(** *** POST /api/v1/routine/current *)

Definition current (userId : option jsstring) : M Response :=
  if negb (truthyText userId) then ret MissingUserIdInBody
  else
    fault <- storeCheck ;;
    match fault with
    | Some e => ret (FetchFailure e)
    | None =>
        fun st =>
          match findOneLatest (textOf userId) (routines st) with
          | None => (NotFound, st)
          | Some routineDoc =>
              (RoutineSuccess (routine routineDoc) (createdAt routineDoc)
                 (updatedAt routineDoc), st)
          end
    end.

End Server.

(** ** What the specification calls its inputs *)

(** "an ordered sequence of strings with length exactly equal to the
    QuestionSet length". *)
Definition answersWellFormed (answers : option JSON) : bool :=
  match answers with
  | Some (JArr items) =>
      Nat.eqb (List.length items) (List.length routineQuestions)
      && forallb isString items
  | _ => false
  end.

(** An array of the right length, whatever its elements. *)
Definition answersCounted (answers : option JSON) : bool :=
  match answers with
  | Some (JArr items) =>
      Nat.eqb (List.length items) (List.length routineQuestions)
  | _ => false
  end.

Definition allWhiteSpace (s : jsstring) : bool := forallb isWhiteSpace s.



(** ** A scripted runtime, for the examples

    The model answers from a list of prepared results, the clock
    advances by a millisecond at each reading and the store refuses
    every write while it is out.  The built-ins are given on the values
    the examples use. *)

Record Script : Type := mkScript {
  replies : list GenResult;
  clock : N;
  outage : option jsstring
}.

Definition scriptedModel (parts : list Part) (w : Script) : GenResult * Script :=
  match replies w with
  | r :: rest =>
      (r, {| replies := rest; clock := clock w; outage := outage w |})
  | [] => (GenErr (js "fetch failed"), w)
  end.

Definition scriptedClock (w : Script) : N * Script :=
  (clock w,
   {| replies := replies w; clock := clock w + 1; outage := outage w |}).

(** [toLowerCase] on the letters A to Z. *)
Definition asciiLowerCase (s : jsstring) : jsstring :=
  map (fun c => if (65 <=? c) && (c <=? 90) then c + 32 else c) s.

(** [Number.prototype.toString] on the integers. *)
Definition integerToString (q : Q) : jsstring :=
  js (NilZero.string_of_int (Z.to_int (Qnum q / Z.pos (Qden q)))).

Definition jsonWakeDrink : jsstring :=
  js "[" ++ dq ++ js "Wake at 7am" ++ dq ++ js "," ++ dq ++ js "Drink water"
  ++ dq ++ js "]".

Definition jsonObjectA1 : jsstring :=
  js "{" ++ dq ++ js "a" ++ dq ++ js ":1}".

Definition jsonXand2 : jsstring :=
  js "[" ++ dq ++ js "x" ++ dq ++ js ", 2]".

(** [JSON.parse] on the four texts of the examples. *)
Definition parseTable (s : jsstring) : option JSON :=
  if str_eqb s (js "[]") then Some (JArr [])
  else if str_eqb s jsonWakeDrink
  then Some (JArr [JStr (js "Wake at 7am"); JStr (js "Drink water")])
  else if str_eqb s jsonObjectA1 then Some (JObj [(js "a", JNum 1)])
  else if str_eqb s jsonXand2 then Some (JArr [JStr (js "x"); JNum 2])
  else None.

Definition base64Digit (n : N) : N :=
  if n <? 26 then 65 + n
  else if n <? 52 then 97 + (n - 26)
  else if n <? 62 then 48 + (n - 52)
  else if n =? 62 then 43 else 47.

Fixpoint base64Encode (bytes : list N) : jsstring :=
  match bytes with
  | [] => []
  | [a] => [base64Digit (a / 4); base64Digit ((a mod 4) * 16); 61; 61]
  | [a; b] =>
      [base64Digit (a / 4); base64Digit ((a mod 4) * 16 + b / 16);
       base64Digit ((b mod 16) * 4); 61]
  | a :: b :: c :: rest =>
      [base64Digit (a / 4); base64Digit ((a mod 4) * 16 + b / 16);
       base64Digit ((b mod 16) * 4 + c / 64); base64Digit (c mod 64)]
      ++ base64Encode rest
  end.

#[local] Instance scripted : Runtime := {|
  World := Script;
  generateContent := scriptedModel;
  currentTime := scriptedClock;
  storeFault := fun w => (outage w, w);
  toLowerCase := asciiLowerCase;
  numberToString := integerToString;
  typeErrorMessage := js "Cannot convert object to primitive value";
  JSON_parse := parseTable;
  base64 := base64Encode
|}.

Definition scriptedState (rs : list GenResult) : @State scripted :=
  {| world := {| replies := rs; clock := 1762041600000; outage := None |};
     calls := []; routines := []; uploads := [] |}.

(** The same with the store out. *)
Definition storeOutState (rs : list GenResult) : @State scripted :=
  {| world := {| replies := rs; clock := 1762041600000;
                 outage := Some (js "connection lost") |};
     calls := []; routines := []; uploads := [] |}.

(** ** Predicates and inputs of the statements *)

Definition noStar (s : jsstring) : bool :=
  forallb (fun c => negb (c =? star)) s.

(** White space occurs only as single spaces. *)
Fixpoint wsNormal (s : jsstring) : bool :=
  match s with
  | [] => true
  | c :: t =>
      (if isWhiteSpace c
       then (c =? space)
            && match t with d :: _ => negb (isWhiteSpace d) | [] => true end
       else true)
      && wsNormal t
  end.

(** A point that the pipeline could have emitted. *)
Definition settled (p : jsstring) : Prop :=
  noStar p = true /\ wsNormal p = true /\ trim p = p
  /\ isEmpty p = false /\ matchesSeparator p = false /\ longEnough p = true.


(** An indented item with the bullet U+2022, as models write nested
    lists. *)
Definition indentedBulletItem : jsstring :=
  js "  " ++ [bullet] ++ js " Stay hydrated through the day".

(** The request that the classifier sends for a message. *)
Definition classifierCall (message : jsstring) : list Part :=
  [textPart (classificationPrompt message)].

(** A question outside the domain. *)
Definition capitalQuestion : jsstring := js "What is the capital of France?".

(** The state in which the model is about to answer that the question
    is not about health. *)
Definition offTopic : @State scripted := scriptedState [GenOk (js " False ")].

Definition fencedWakeDrink : jsstring :=
  fence ++ js "json" ++ nl ++ jsonWakeDrink ++ nl ++ fence.

Definition tenNumbers : option JSON := Some (JArr (repeat (JNum 1) 10)).

Definition nineStrings : option JSON :=
  Some (JArr (repeat (JStr (js "yes")) 9)).

Definition tenStrings : option JSON :=
  Some (JArr (repeat (JStr (js "yes")) 10)).

Definition photo : File :=
  {| path := js "uploads/image-1.png"; mimetype := js "image/png" |}.

Definition withPhoto (st : @State scripted) : @State scripted :=
  {| world := world st; calls := calls st; routines := routines st;
     uploads := [(js "uploads/image-1.png", [137; 80; 78; 71])] |}.

(** [f] on the last element of a list. *)
Fixpoint mapLast {A : Type} (f : A -> A) (l : list A) : list A :=
  match l with
  | [] => []
  | [x] => [f x]
  | x :: rest => x :: mapLast f rest
  end.

Definition noNewline (s : jsstring) : bool :=
  forallb (fun c => negb (c =? 10)) s.

Fixpoint zipWith {A B C : Type} (f : A -> B -> C) (a : list A) (b : list B)
    : list C :=
  match a, b with
  | x :: a', y :: b' => f x y :: zipWith f a' b'
  | _, _ => []
  end.

(** The state in which the model is about to say that the question is
    about health and then to answer it. *)
Definition onTopic : @State scripted :=
  scriptedState [GenOk (js "true"); GenOk (js "Migraines are often triggered by stress.")].

(** Ten answers of which the first is an object with a key [toString]. *)
Definition ownToString : option JSON :=
  Some (JArr (JObj [(js "toString", JNum 1)] :: repeat (JStr (js "yes")) 9)).

Definition migraineQuestion : jsstring := js "What causes migraines?".

(** What one line of the model's text contributes to the points. *)
Definition pointOf (line : jsstring) : list jsstring :=
  if isEmpty (trim line) then []
  else
    let p := cleanPoint line in
    if negb (isEmpty p) && negb (matchesSeparator p) && longEnough p
    then [p] else [].

(** A step of the clean-up that hands trailing white space on, or drops
    it. *)
Definition passesTrailingSpace (f : jsstring -> jsstring) : Prop :=
  forall x ws, allWhiteSpace ws = true ->
    exists ws', allWhiteSpace ws' = true /\ f (x ++ ws) = f x ++ ws'.

(** A lower-case letter of ASCII. *)
Definition lowerLetter (p : N) : bool := (97 <=? p) && (p <=? 122).

(** A code unit that is not the full stop. *)
Definition noDot (s : jsstring) : bool := forallb (fun c => negb (c =? 46)) s.

(** ** Properties of the clean-up *)

Section NormalizerFacts.

Lemma isWhiteSpace_star : isWhiteSpace star = false.
Proof. reflexivity. Qed.

Lemma trimStart_all_ws (s : jsstring) :
  forallb isWhiteSpace s = true -> trimStart s = [].
Proof.
  induction s as [|c t IH]; simpl; [reflexivity|].
  intros H. apply andb_true_iff in H as [Hc Ht].
  rewrite Hc. auto.
Qed.


Lemma trimStart_nil_all_ws (s : jsstring) :
  forallb isWhiteSpace (trimStart s) = true -> forallb isWhiteSpace s = true.
Proof.
  induction s as [|c t IH]; simpl; [reflexivity|].
  destruct (isWhiteSpace c) eqn:E; simpl; [auto|].
  rewrite E. discriminate.
Qed.


Lemma trim_all_ws (s : jsstring) :
  forallb isWhiteSpace s = true -> trim s = [].
Proof.
  intros H. unfold trim. rewrite trimStart_all_ws by assumption. reflexivity.
Qed.


(** Deleting the pairs of stars first changes nothing to deleting
    every star. *)
Lemma removeItalics_removeBold (s : jsstring) :
  removeItalics (removeBold s) = removeStars s.
Proof.
  unfold removeItalics, removeStars.
  remember (List.length s) as n eqn:Hn.
  revert s Hn. induction n as [n IH] using lt_wf_ind. intros s Hn.
  destruct s as [|a [|b t]]; [reflexivity|reflexivity|].
  cbn [removeBold].
  destruct ((a =? star) && (b =? star)) eqn:E.
  - apply andb_true_iff in E as [Ea Eb].
    cbn [filter]. rewrite Ea, Eb. cbn [negb].
    apply (IH (List.length t)); [subst n; simpl; lia|reflexivity].
  - assert (IHt : filter (fun c : N => negb (c =? star)) (removeBold (b :: t)) =
                  filter (fun c : N => negb (c =? star)) (b :: t))
      by (apply (IH (List.length (b :: t))); [subst n; simpl; lia|reflexivity]).
    change (filter (fun c : N => negb (c =? star)) (a :: removeBold (b :: t)) =
            filter (fun c : N => negb (c =? star)) (a :: b :: t)).
    set (rb := removeBold (b :: t)) in *. cbn [filter].
    rewrite IHt. reflexivity.
Qed.

Lemma cleanPoint_cleanFused (l : jsstring) : cleanPoint l = cleanFused l.
Proof.
  unfold cleanPoint, cleanFused. rewrite removeItalics_removeBold. reflexivity.
Qed.










(** *** What every emitted point satisfies *)

Lemma forallb_trimStart (P : N -> bool) (s : jsstring) :
  forallb P s = true -> forallb P (trimStart s) = true.
Proof.
  induction s as [|c t IH]; simpl; [reflexivity|].
  intros H. destruct (isWhiteSpace c); [|exact H].
  apply andb_true_iff in H as [_ Ht]. auto.
Qed.

Lemma forallb_dropHashes (P : N -> bool) (s : jsstring) :
  forallb P s = true -> forallb P (dropHashes s) = true.
Proof.
  induction s as [|c t IH]; simpl; [reflexivity|].
  intros H. destruct (c =? hash); [|exact H].
  apply andb_true_iff in H as [_ Ht]. auto.
Qed.

Lemma forallb_trimEnd (P : N -> bool) (s : jsstring) :
  forallb P s = true -> forallb P (trimEnd s) = true.
Proof.
  induction s as [|c t IH]; simpl; [reflexivity|].
  intros H. apply andb_true_iff in H as [Hc Ht]. specialize (IH Ht).
  destruct (trimEnd t) as [|d r].
  - destruct (isWhiteSpace c); simpl; [reflexivity|]. rewrite Hc. reflexivity.
  - change (forallb P (c :: d :: r)) with (P c && forallb P (d :: r)).
    rewrite Hc, IH. reflexivity.
Qed.

Lemma forallb_normalizeSpaces (P : N -> bool) (s : jsstring) :
  P space = true -> forallb P s = true ->
  forallb P (normalizeSpaces s) = true.
Proof.
  intros Hsp. induction s as [|c t IH]; [reflexivity|].
  intros H. simpl in H. apply andb_true_iff in H as [Hc Ht]. specialize (IH Ht).
  simpl. destruct (isWhiteSpace c).
  - destruct t as [|d t']; [simpl; rewrite Hsp; reflexivity|].
    destruct (isWhiteSpace d); [exact IH|].
    change (P space && forallb P (normalizeSpaces (d :: t')) = true).
    rewrite Hsp, IH. reflexivity.
  - change (P c && forallb P (normalizeSpaces t) = true).
    rewrite Hc, IH. reflexivity.
Qed.

Lemma forallb_cleanFused (P : N -> bool) (l : jsstring) :
  P space = true -> forallb P (removeStars l) = true ->
  forallb P (cleanFused l) = true.
Proof.
  intros Hsp H. unfold cleanFused, trim.
  apply forallb_trimEnd, forallb_trimStart, forallb_normalizeSpaces; [exact Hsp|].
  set (e := removeStars l) in *.
  assert (Hb : forallb P (removeBullet e) = true).
  { unfold removeBullet. destruct e as [|c t]; [reflexivity|].
    destruct (isBulletChar c); [|exact H].
    apply forallb_trimStart. simpl in H. apply andb_true_iff in H. tauto. }
  unfold removeHeader. destruct (removeBullet e) as [|c t]; [reflexivity|].
  destruct (c =? hash); [|exact Hb].
  apply forallb_trimStart, forallb_dropHashes.
  simpl in Hb. apply andb_true_iff in Hb. tauto.
Qed.

Lemma noStar_cleanFused (l : jsstring) : noStar (cleanFused l) = true.
Proof.
  apply forallb_cleanFused; [reflexivity|].
  unfold removeStars. apply forallb_forall. intros c Hc.
  apply filter_In in Hc. tauto.
Qed.

Lemma wsNormal_tail (c : N) (t : jsstring) :
  wsNormal (c :: t) = true -> wsNormal t = true.
Proof. simpl. intros H. apply andb_true_iff in H. tauto. Qed.

Lemma wsNormal_normalizeSpaces (s : jsstring) :
  wsNormal (normalizeSpaces s) = true.
Proof.
  induction s as [|c t IH]; [reflexivity|].
  simpl. destruct (isWhiteSpace c) eqn:Hc.
  - destruct t as [|d t']; [reflexivity|].
    destruct (isWhiteSpace d) eqn:Hd; [exact IH|].
    assert (E : normalizeSpaces (d :: t') = d :: normalizeSpaces t')
      by (simpl; rewrite Hd; reflexivity).
    rewrite E in *.
    change (wsNormal (space :: d :: normalizeSpaces t'))
      with (negb (isWhiteSpace d) && wsNormal (d :: normalizeSpaces t')).
    rewrite Hd, IH. reflexivity.
  - change (wsNormal (c :: normalizeSpaces t))
      with ((if isWhiteSpace c
             then (c =? space)
                  && match normalizeSpaces t with
                     | d :: _ => negb (isWhiteSpace d)
                     | [] => true
                     end
             else true) && wsNormal (normalizeSpaces t)).
    rewrite Hc, IH. reflexivity.
Qed.

Lemma wsNormal_trimStart (s : jsstring) :
  wsNormal s = true -> wsNormal (trimStart s) = true.
Proof.
  induction s as [|c t IH]; [reflexivity|].
  intros H. simpl. destruct (isWhiteSpace c); [|exact H].
  apply IH, (wsNormal_tail c), H.
Qed.

Lemma trimEnd_head (s : jsstring) (d : N) (r : jsstring) :
  trimEnd s = d :: r -> exists r0, s = d :: r0.
Proof.
  destruct s as [|c t]; simpl; [discriminate|].
  destruct (trimEnd t).
  - destruct (isWhiteSpace c); [discriminate|].
    intros H. injection H as -> _. eauto.
  - intros H. injection H as -> _. eauto.
Qed.

Lemma wsNormal_trimEnd (s : jsstring) :
  wsNormal s = true -> wsNormal (trimEnd s) = true.
Proof.
  induction s as [|c t IH]; [reflexivity|].
  intros H. pose proof (wsNormal_tail _ _ H) as Ht. specialize (IH Ht).
  simpl. destruct (trimEnd t) as [|d r] eqn:E.
  - destruct (isWhiteSpace c) eqn:Hc; [reflexivity|]. simpl. rewrite Hc. reflexivity.
  - destruct (trimEnd_head _ _ _ E) as [r0 ->].
    simpl in H. apply andb_true_iff in H as [H1 _].
    change (wsNormal (c :: d :: r))
      with ((if isWhiteSpace c then (c =? space) && negb (isWhiteSpace d) else true)
            && wsNormal (d :: r)).
    rewrite H1, IH. reflexivity.
Qed.

Lemma wsNormal_fixed (s : jsstring) :
  wsNormal s = true -> normalizeSpaces s = s.
Proof.
  induction s as [|c t IH]; [reflexivity|].
  intros H. pose proof (wsNormal_tail _ _ H) as Ht. specialize (IH Ht).
  simpl in H. apply andb_true_iff in H as [H1 _].
  simpl. destruct (isWhiteSpace c).
  - apply andb_true_iff in H1 as [Hsp Hd]. apply N.eqb_eq in Hsp. subst c.
    destruct t as [|d t']; [reflexivity|].
    apply negb_true_iff in Hd. rewrite Hd. rewrite IH. reflexivity.
  - rewrite IH. reflexivity.
Qed.

Lemma wsNormal_no_newline (s : jsstring) :
  wsNormal s = true -> forallb (fun c => negb (c =? 10)) s = true.
Proof.
  induction s as [|c t IH]; [reflexivity|].
  intros H. pose proof (wsNormal_tail _ _ H) as Ht.
  simpl in H. apply andb_true_iff in H as [H1 _].
  simpl. rewrite (IH Ht), andb_true_r.
  destruct (c =? 10) eqn:E; [|reflexivity].
  apply N.eqb_eq in E. subst c. discriminate.
Qed.

Lemma trimEnd_idempotent (s : jsstring) : trimEnd (trimEnd s) = trimEnd s.
Proof.
  induction s as [|c t IH]; [reflexivity|].
  simpl. destruct (trimEnd t) as [|d r] eqn:E.
  - destruct (isWhiteSpace c) eqn:Hc; [reflexivity|]. simpl. rewrite Hc. reflexivity.
  - change (trimEnd (c :: d :: r))
      with (match trimEnd (d :: r) with
            | [] => if isWhiteSpace c then [] else [c]
            | t' => c :: t'
            end).
    rewrite IH. reflexivity.
Qed.

Lemma trimStart_head (s : jsstring) :
  match trimStart s with
  | c :: _ => isWhiteSpace c = false
  | [] => True
  end.
Proof.
  induction s as [|c t IH]; simpl; [exact I|].
  destruct (isWhiteSpace c) eqn:E; [exact IH|exact E].
Qed.

Lemma trim_idempotent (s : jsstring) : trim (trim s) = trim s.
Proof.
  unfold trim. pose proof (trimStart_head s) as H.
  destruct (trimEnd (trimStart s)) as [|d r] eqn:E; [reflexivity|].
  destruct (trimEnd_head _ _ _ E) as [r0 E0]. rewrite E0 in H.
  simpl trimStart. rewrite H. rewrite <- E. apply trimEnd_idempotent.
Qed.

Lemma points_settled (text p : jsstring) :
  In p (points text) -> settled p.
Proof.
  unfold points. intros H.
  apply filter_In in H as [H Hlong].
  apply filter_In in H as [H Hsep].
  apply in_map_iff in H as [l [<- _]].
  apply andb_true_iff in Hsep as [He Hs].
  apply negb_true_iff in He, Hs.
  rewrite cleanPoint_cleanFused in *.
  repeat split; try assumption.
  - apply noStar_cleanFused.
  - unfold cleanFused, trim.
    apply wsNormal_trimEnd, wsNormal_trimStart, wsNormal_normalizeSpaces.
  - unfold cleanFused. apply trim_idempotent.
Qed.

(** The length bound and the absence of stars and of a leading
    separator hold for every input. *)
Lemma points_longer_than_10 (text p : jsstring) :
  In p (points text) -> 10 < N.of_nat (List.length p).
Proof.
  intros H. apply points_settled in H. unfold settled, longEnough in H.
  apply N.ltb_lt. tauto.
Qed.

Lemma points_head_not_marker (text p : jsstring) :
  In p (points text) ->
  startsWith [hash] p = false /\ startsWith [dash] p = false
  /\ startsWith [star] p = false.
Proof.
  intros H. apply points_settled in H.
  destruct H as (Hs & _ & _ & _ & Hm & _).
  destruct p as [|c t]; [auto|].
  unfold noStar in Hs. cbn [forallb] in Hs. cbn [matchesSeparator] in Hm.
  cbn [startsWith]. apply andb_true_iff in Hs as [Hc _].
  unfold isSeparatorChar in Hm. rewrite !andb_true_r.
  rewrite (N.eqb_sym hash c), (N.eqb_sym dash c), (N.eqb_sym star c).
  apply negb_true_iff in Hc.
  destruct (c =? hash) eqn:E1; [rewrite orb_true_r in Hm; discriminate|].
  destruct (c =? dash) eqn:E2; [rewrite !orb_true_r in Hm; discriminate|].
  auto.
Qed.

Lemma settled_fixed (p : jsstring) :
  settled p -> startsWith [bullet] p = false -> cleanPoint p = p.
Proof.
  intros (Hs & Hw & Ht & He & Hm & _) Hb.
  rewrite cleanPoint_cleanFused. unfold cleanFused.
  assert (E1 : removeStars p = p).
  { unfold removeStars. clear - Hs.
    induction p as [|c t IH]; [reflexivity|].
    simpl in Hs. apply andb_true_iff in Hs as [Hc Hs].
    simpl. rewrite Hc. f_equal. auto. }
  rewrite E1. destruct p as [|c t]; [discriminate|].
  unfold noStar in Hs. cbn [forallb] in Hs. cbn [matchesSeparator] in Hm.
  cbn [startsWith] in Hb. apply andb_true_iff in Hs as [Hc _].
  apply negb_true_iff in Hc. rewrite andb_true_r, N.eqb_sym in Hb.
  unfold isSeparatorChar in Hm.
  destruct (c =? hash) eqn:E2; [rewrite orb_true_r in Hm; discriminate|].
  destruct (c =? dash) eqn:E3; [rewrite !orb_true_r in Hm; discriminate|].
  unfold removeBullet, isBulletChar. rewrite E3, Hb, Hc. cbn [orb].
  unfold removeHeader. rewrite E2.
  rewrite (wsNormal_fixed _ Hw). exact Ht.
Qed.

Lemma split_one_line (s : jsstring) :
  forallb (fun c => negb (c =? 10)) s = true -> split 10 s = [s].
Proof.
  induction s as [|c t IH]; [reflexivity|].
  simpl. intros H. apply andb_true_iff in H as [Hc Ht].
  apply negb_true_iff in Hc. rewrite Hc, (IH Ht). reflexivity.
Qed.

Lemma split_first_line (s rest : jsstring) :
  forallb (fun c => negb (c =? 10)) s = true ->
  split 10 (s ++ nl ++ rest) = s :: split 10 rest.
Proof.
  induction s as [|c t IH]; [reflexivity|].
  simpl. intros H. apply andb_true_iff in H as [Hc Ht].
  apply negb_true_iff in Hc. rewrite Hc. unfold nl in IH. simpl in IH.
  rewrite (IH Ht). reflexivity.
Qed.

Lemma split_join (ps : list jsstring) :
  Forall (fun p => forallb (fun c => negb (c =? 10)) p = true) ps ->
  ps <> [] -> split 10 (join nl ps) = ps.
Proof.
  induction ps as [|p rest IH]; [congruence|].
  intros H _. inversion H as [|? ? Hp Hrest]; subst.
  destruct rest as [|q rest'].
  - simpl. apply split_one_line, Hp.
  - change (join nl (p :: q :: rest')) with (p ++ nl ++ join nl (q :: rest')).
    rewrite split_first_line by exact Hp.
    rewrite IH; [reflexivity|exact Hrest|discriminate].
Qed.

(** Away from the bullet the clean-up is idempotent: when no emitted
    point begins with U+2022, cleaning the joined points again returns
    them unchanged. *)
Lemma points_idempotent_unless_bullet (text : jsstring) :
  forallb (fun p => negb (startsWith [bullet] p)) (points text) = true ->
  points (join nl (points text)) = points text.
Proof.
  intros Hb.
  assert (Hall : Forall (fun p => settled p /\ startsWith [bullet] p = false)
                   (points text)).
  { apply Forall_forall. intros p Hp. split; [eapply points_settled, Hp|].
    rewrite forallb_forall in Hb. apply negb_true_iff, Hb, Hp. }
  clear Hb. set (ps := points text) in *. clearbody ps.
  destruct ps as [|p0 rest]; [reflexivity|].
  unfold points at 1. rewrite split_join; [| |discriminate].
  2:{ eapply Forall_impl; [|exact Hall]. intros p [(_ & Hw & _) _].
      apply wsNormal_no_newline, Hw. }
  induction Hall as [|p ps [Hs Hbp] _ IH]; [reflexivity|].
  pose proof (settled_fixed p Hs Hbp) as Hfix.
  destruct Hs as (_ & _ & Ht & He & Hm & Hl).
  cbn [filter]. rewrite Ht, He. cbn [negb map filter].
  rewrite Hfix, He, Hm. cbn [negb andb filter]. rewrite Hl.
  f_equal. exact IH.
Qed.

(** *** The clean-up on concrete texts *)

(** The example of the specification. *)
Example points_triggers :
  points (js "- **Triggers** include stress") = [js "Triggers include stress"].
Proof. vm_compute. reflexivity. Qed.

Example points_empty_text : points [] = [].
Proof. reflexivity. Qed.


(** The same on a remark that opens with a colon. *)
Example points_drops_colon_line :
  points (js ":warning: rest for two days") = []
  /\ normalize_spec (js ":warning: rest for two days")
     = [js ":warning: rest for two days"].
Proof. vm_compute. split; reflexivity. Qed.

(** C2, at the failing input.  The indented bullet is not removed: the
    emitted point still begins with U+2022. *)
Theorem points_keeps_indented_bullet :
  points indentedBulletItem
  = [[bullet] ++ js " Stay hydrated through the day"]
  /\ forallb (fun p => negb (startsWith [bullet] p)) (points indentedBulletItem)
     = false.
Proof. vm_compute. split; reflexivity. Qed.

(** C3, at the failing input.  Cleaning the emitted point again removes
    the bullet that the first pass left, so that the second result is
    not the first. *)
Theorem points_second_pass_differs :
  points (join nl (points indentedBulletItem))
  = [js "Stay hydrated through the day"]
  /\ points (join nl (points indentedBulletItem)) <> points indentedBulletItem.
Proof. vm_compute. split; [reflexivity|discriminate]. Qed.

(** A second pass can also lose a point: twelve code units with the
    bullet, ten without. *)
Example points_second_pass_drops :
  points (js " " ++ [bullet] ++ js " Sleep well") = [[bullet] ++ js " Sleep well"]
  /\ points (join nl (points (js " " ++ [bullet] ++ js " Sleep well"))) = [].
Proof. vm_compute. split; reflexivity. Qed.

End NormalizerFacts.

(** ** Properties of the endpoints *)

Lemma str_eqb_eq (a b : jsstring) : str_eqb a b = true <-> a = b.
Proof.
  revert b. induction a as [|x a IH]; intros [|y b]; simpl;
    try (split; [discriminate|congruence]); [tauto|].
  rewrite andb_true_iff, N.eqb_eq, IH. split; [intros []|intros [=]]; subst; auto.
Qed.

Lemma str_eqb_refl (a : jsstring) : str_eqb a a = true.
Proof. apply str_eqb_eq. reflexivity. Qed.

(** *** The routine collection *)

Section StoreFacts.

Lemma findOneAndUpdate_result (uid : jsstring) (tasks : list jsstring) (now : N)
    (coll : list RoutineDoc) :
  let d := fst (findOneAndUpdate uid tasks now coll) in
  let c := snd (findOneAndUpdate uid tasks now coll) in
  userId d = uid /\ routine d = tasks /\ updatedAt d = now
  /\ createdAt d = match docsOf uid coll with
                   | d0 :: _ => createdAt d0
                   | [] => now
                   end
  /\ docsOf uid c = d :: tl (docsOf uid coll)
  /\ (forall other, other <> uid -> docsOf other c = docsOf other coll).
Proof.
  induction coll as [|d0 rest IH]; cbn [findOneAndUpdate].
  - cbn. rewrite str_eqb_refl. repeat split; try reflexivity.
    intros other Ho. destruct (str_eqb uid other) eqn:E; [|reflexivity].
    apply str_eqb_eq in E. congruence.
  - unfold docsOf in *. cbn [filter].
    destruct (str_eqb (userId d0) uid) eqn:E.
    + cbn. rewrite E. apply str_eqb_eq in E.
      repeat split; try reflexivity; try assumption.
      intros other Ho. destruct (str_eqb (userId d0) other) eqn:Eo; [|reflexivity].
      apply str_eqb_eq in Eo. congruence.
    + destruct (findOneAndUpdate uid tasks now rest) as [d c] eqn:F.
      cbn in IH |- *. rewrite E.
      destruct IH as (H1 & H2 & H3 & H4 & H5 & H6).
      repeat split; try assumption.
      intros other Ho. rewrite (H6 other Ho). reflexivity.
Qed.

(** Writes never make a second document for a user. *)
Lemma findOneAndUpdate_at_most_one (uid who : jsstring) (tasks : list jsstring)
    (now : N) (coll : list RoutineDoc) :
  (List.length (docsOf who coll) <= 1)%nat ->
  (List.length (docsOf who (snd (findOneAndUpdate uid tasks now coll))) <= 1)%nat.
Proof.
  intros H.
  destruct (findOneAndUpdate_result uid tasks now coll) as (_ & _ & _ & _ & H5 & H6).
  destruct (str_eqb who uid) eqn:E.
  - apply str_eqb_eq in E. subst who. rewrite H5.
    destruct (docsOf uid coll); simpl in *; lia.
  - rewrite H6; [exact H|]. intros ->. rewrite str_eqb_refl in E. discriminate.
Qed.

Lemma Upserted_at_most_one (coll : list RoutineDoc) (who : jsstring) :
  Upserted coll -> (List.length (docsOf who coll) <= 1)%nat.
Proof.
  induction 1 as [|uid tasks now coll _ IH]; [simpl; lia|].
  apply findOneAndUpdate_at_most_one, IH.
Qed.

Lemma upsert_twice (uid : jsstring) (tasks1 tasks2 : list jsstring) (t1 t2 : N)
    (coll : list RoutineDoc) :
  (List.length (docsOf uid coll) <= 1)%nat ->
  let first := findOneAndUpdate uid tasks1 t1 coll in
  let second := findOneAndUpdate uid tasks2 t2 (snd first) in
  docsOf uid (snd second) = [fst second]
  /\ routine (fst second) = tasks2
  /\ updatedAt (fst second) = t2
  /\ (updatedAt (fst first) < updatedAt (fst second) <-> t1 < t2)
  /\ createdAt (fst second) = createdAt (fst first)
  /\ (forall other, other <> uid ->
        docsOf other (snd second) = docsOf other coll).
Proof.
  intros Hone first second.
  destruct (findOneAndUpdate_result uid tasks1 t1 coll)
    as (_ & _ & U1 & _ & D1 & O1).
  destruct (findOneAndUpdate_result uid tasks2 t2 (snd first))
    as (_ & R2 & U2 & C2 & D2 & O2).
  fold first in U1, D1, O1. fold second in R2, U2, C2, D2, O2.
  assert (E1 : docsOf uid (snd first) = [fst first]).
  { rewrite D1. destruct (docsOf uid coll) as [|a [|b l]]; simpl in *;
      try reflexivity; lia. }
  rewrite E1 in C2, D2. repeat split; try assumption.
  - rewrite U1, U2. auto.
  - rewrite U1, U2. auto.
  - intros other Ho. rewrite (O2 other Ho). apply O1, Ho.
Qed.

(** C8, as amended.  On a collection that the routine generator has
    written, two upserts for a user leave exactly one document of that
    user: its routine is the second list, its [updatedAt] is the clock
    reading of the second write, which is strictly later than that of the
    first exactly when the clock has advanced between the two, its
    [createdAt] is what the first write left, and the documents of the
    other users are as before. *)
Theorem upsert_twice_keeps_one_document
    (uid : jsstring) (tasks1 tasks2 : list jsstring) (t1 t2 : N)
    (coll : list RoutineDoc) :
  Upserted coll ->
  let first := findOneAndUpdate uid tasks1 t1 coll in
  let second := findOneAndUpdate uid tasks2 t2 (snd first) in
  docsOf uid (snd second) = [fst second]
  /\ routine (fst second) = tasks2
  /\ updatedAt (fst second) = t2
  /\ (updatedAt (fst first) < updatedAt (fst second) <-> t1 < t2)
  /\ createdAt (fst second) = createdAt (fst first)
  /\ (forall other, other <> uid ->
        docsOf other (snd second) = docsOf other coll).
Proof.
  intros H. apply upsert_twice, Upserted_at_most_one, H.
Qed.

(** C8, counterexample.  Two writes that read the same millisecond from
    the clock leave [updatedAt] as it was: the second is not strictly
    later. *)
Lemma upsert_in_the_same_millisecond :
  updatedAt
    (fst (findOneAndUpdate (js "user-1") [js "Wake at 7am"] 1762041600000 []))
  = 1762041600000
  /\ updatedAt
       (fst (findOneAndUpdate (js "user-1") [js "Drink water"] 1762041600000
               (snd (findOneAndUpdate (js "user-1") [js "Wake at 7am"]
                       1762041600000 []))))
     = 1762041600000
  /\ ~ updatedAt
         (fst (findOneAndUpdate (js "user-1") [js "Wake at 7am"]
                 1762041600000 []))
       < updatedAt
           (fst (findOneAndUpdate (js "user-1") [js "Drink water"] 1762041600000
                   (snd (findOneAndUpdate (js "user-1") [js "Wake at 7am"]
                           1762041600000 [])))).
Proof. vm_compute. repeat split. discriminate. Qed.

End StoreFacts.

(** *** Fences *)

Section FenceFacts.

Lemma trimStart_app_ws (ws s : jsstring) :
  allWhiteSpace ws = true -> trimStart (ws ++ s) = trimStart s.
Proof.
  induction ws as [|c t IH]; [reflexivity|].
  intros H. cbn in H. apply andb_true_iff in H as [Hc Ht].
  simpl. rewrite Hc. auto.
Qed.

Lemma trimStart_app_kept (s y : jsstring) :
  trimStart s <> [] -> trimStart (s ++ y) = trimStart s ++ y.
Proof.
  induction s as [|c t IH]; simpl; [congruence|].
  destruct (isWhiteSpace c); [exact IH|reflexivity].
Qed.

Lemma trimStart_nil (s : jsstring) :
  trimStart s = [] -> allWhiteSpace s = true.
Proof.
  intros H. apply trimStart_nil_all_ws. rewrite H. reflexivity.
Qed.

Lemma trimEnd_all_ws (s : jsstring) :
  allWhiteSpace s = true -> trimEnd s = [].
Proof.
  induction s as [|c t IH]; [reflexivity|].
  intros H. cbn in H. apply andb_true_iff in H as [Hc Ht].
  simpl. rewrite (IH Ht), Hc. reflexivity.
Qed.

Lemma trimEnd_app_ws (s ws : jsstring) :
  allWhiteSpace ws = true -> trimEnd (s ++ ws) = trimEnd s.
Proof.
  intros H. induction s as [|c t IH]; [apply trimEnd_all_ws, H|].
  simpl. rewrite IH. reflexivity.
Qed.














End FenceFacts.

Section ServerFacts.

Context {R : Runtime}.

Lemma isHealthRelated_calls (message : jsstring) (st : State) :
  calls (snd (isHealthRelated message st))
  = calls st ++ [classifierCall message]
  /\ routines (snd (isHealthRelated message st)) = routines st
  /\ uploads (snd (isHealthRelated message st)) = uploads st.
Proof.
  unfold isHealthRelated, bind, callModel, ret, classifierCall.
  destruct (generateContent _ (world st)) as [[reply|e] w]; simpl; auto.
Qed.

(** C4.  When the classifier answers false for the text of a request,
    each chat endpoint ends with the out-of-domain response, and the only
    request that went to the model is the classifier's own: the query is
    never sent for an answer. *)
Theorem out_of_domain_stops_before_generation
    (message : jsstring) (imageFile : option File) (st : State) :
  isEmpty message = false ->
  fst (isHealthRelated message st) = false ->
  (fst (chat (Some message) st) = OutOfDomain
   /\ calls (snd (chat (Some message) st))
      = calls st ++ [classifierCall message])
  /\ (fst (chatWithImage (Some message) imageFile st) = OutOfDomain
      /\ calls (snd (chatWithImage (Some message) imageFile st))
         = calls st ++ [classifierCall message]).
Proof.
  intros Hm Hc. pose proof (isHealthRelated_calls message st) as (Hcalls & _ & _).
  unfold chat, chatWithImage, bind. cbn [truthyText textOf]. rewrite Hm.
  cbn [negb andb]. destruct (isHealthRelated message st) as [b st1].
  simpl in Hc, Hcalls. subst b. cbn [negb].
  split; [split; [reflexivity|exact Hcalls]|].
  destruct imageFile as [f|]; cbn; auto.
Qed.

(** C5.  The classifier answers true exactly when the call to the model
    gave a reply whose lower-cased and trimmed text is [true]; when the
    call failed it answers false, and it always answers. *)
Theorem isHealthRelated_verdict (message : jsstring) (st : State) :
  (fst (isHealthRelated message st) = true <->
   exists reply,
     fst (generateContent (classifierCall message) (world st)) = GenOk reply
     /\ trim (toLowerCase reply) = js "true")
  /\ (forall e,
        fst (generateContent (classifierCall message) (world st)) = GenErr e ->
        fst (isHealthRelated message st) = false).
Proof.
  unfold isHealthRelated, bind, callModel, ret, classifierCall.
  destruct (generateContent _ (world st)) as [[reply|e] w]; simpl; split.
  - rewrite str_eqb_eq. split.
    + intros H. exists reply. auto.
    + intros [r [[= <-] H]]. exact H.
  - discriminate.
  - split; [discriminate|]. intros [r [H _]]. discriminate.
  - reflexivity.
Qed.

(** C6, as amended.  A request that has a user id and whose answers are
    not an array of exactly ten elements is answered with the
    answer-count error; nothing is sent to the model and nothing is
    written. *)
Theorem generate_rejects_miscounted_answers
    (userId : jsstring) (answers : option JSON) (st : State) :
  isEmpty userId = false ->
  answersCounted answers = false ->
  generate (Some userId) answers st = (AnswerCountMismatch, st).
Proof.
  intros Hu Ha. unfold generate. cbn [truthyText]. rewrite Hu. cbn [negb].
  destruct answers as [[| | | |items|]|]; cbn in Ha |- *; try reflexivity.
  - destruct b; reflexivity.
  - destruct (Qeq_bool q 0); reflexivity.
  - destruct (isEmpty s); reflexivity.
  - cbn in Ha. rewrite Ha. reflexivity.
Qed.

(** A request without a user id is refused for that, before the answers
    are looked at. *)
Lemma generate_requires_user (answers : option JSON) (st : State) :
  generate None answers st = (MissingUserId, st)
  /\ generate (Some []) answers st = (MissingUserId, st).
Proof. split; reflexivity. Qed.

(** Ten answers pass the validation, whatever their types: when the
    prompt can be written, the model is asked. *)
Lemma generate_accepts_ten_of_any_type
    (userId : jsstring) (items : list JSON) (prompt : jsstring) (st : State) :
  isEmpty userId = false ->
  List.length items = 10%nat ->
  promptText items = Some prompt ->
  calls (snd (generate (Some userId) (Some (JArr items)) st))
  = calls st ++ [[textPart prompt]].
Proof.
  intros Hu Hl Hp. unfold generate. cbn [truthyText]. rewrite Hu.
  cbn [negb truthy isArray arrayItems orb]. rewrite Hl, Hp.
  cbn [Nat.eqb List.length routineQuestions negb].
  unfold bind, callModel.
  destruct (generateContent _ (world st)) as [[reply|e] w]; [|reflexivity].
  destruct (parseRoutine reply); [|reflexivity].
  unfold newDate, storeCheck, upsertRoutine, ret. cbn.
  destruct (currentTime w) as [t w1]. cbn.
  destruct (storeFault w1) as [[e|] w2]; cbn; [reflexivity|].
  destruct (findOneAndUpdate _ _ _ _); reflexivity.
Qed.


(** The shapes that it refuses. *)
Lemma parseTasks_rejects (raw : jsstring) :
  (JSON_parse raw = None -> parseTasks raw = None)
  /\ (forall fields, JSON_parse raw = Some (JObj fields) -> parseTasks raw = None)
  /\ (forall items x, JSON_parse raw = Some (JArr items) -> In x items ->
        isString x = false -> parseTasks raw = None).
Proof.
  unfold parseTasks. repeat split.
  - intros ->. reflexivity.
  - intros fields ->. reflexivity.
  - intros items x -> Hx Hs.
    destruct (forallb isString items) eqn:E; [|reflexivity].
    rewrite forallb_forall in E. rewrite (E x Hx) in Hs. discriminate.
Qed.

Lemma answersCounted_passes (answers : option JSON) :
  answersCounted answers = true ->
  negb (truthy answers) || negb (isArray answers)
  || negb (Nat.eqb (List.length (arrayItems answers))
                   (List.length routineQuestions)) = false.
Proof.
  destruct answers as [[| | | |items|]|]; try discriminate.
  cbn [answersCounted truthy isArray arrayItems negb orb].
  intros ->. reflexivity.
Qed.



(** C9, as amended.  A multimodal request with an image and no text
    never goes through the classifier.  When the uploaded file can be
    read, exactly one request goes to the model: its parts are the fixed
    instruction for images followed by the image, and the response is the
    cleaned reply or the generation failure.  When the file cannot be
    read, the request ends with the image-processing failure and nothing
    is sent to the model. *)
Theorem image_only_request_skips_the_gate
    (userText : option jsstring) (f : File) (st : State) :
  truthyText userText = false ->
  match readFile (path f) (uploads st) with
  | Some bytes =>
      let parts :=
        [textPart imagePrompt;
         {| text := None; inlineData := Some (base64 bytes, mimetype f) |}] in
      calls (snd (chatWithImage userText (Some f) st)) = calls st ++ [parts]
      /\ fst (chatWithImage userText (Some f) st)
         = match generateContent parts (world st) with
           | (GenOk reply, w) => ChatSuccess (points reply) (fst (currentTime w))
           | (GenErr e, _) => GenerationFailure e
           end
  | None =>
      calls (snd (chatWithImage userText (Some f) st)) = calls st
      /\ fst (chatWithImage userText (Some f) st) = ImageProcessingFailure
  end.
Proof.
  intros Ht.
  unfold chatWithImage, bind, ret, fileToGenerativePart, callModel, newDate,
    cleanUp, unlinkIfExists.
  rewrite Ht. cbn -[imagePrompt points].
  destruct (readFile (path f) (uploads st)) as [bytes|];
    cbn -[imagePrompt points]; [|split; reflexivity].
  destruct (generateContent _ (world st)) as [[reply|e] w];
    cbn -[imagePrompt points].
  - destruct (currentTime w) as [t w1]. split; reflexivity.
  - split; reflexivity.
Qed.

(** C10, as amended.  When the reply of the model parses, after the
    fences are stripped, to the empty array, the generate route takes it
    as valid and goes on to the write.  If the store takes the write, the
    empty routine is stored for the user and the response is a success
    that carries it; if the store refuses, the response is the save
    failure and the collection is as before. *)
Theorem empty_routine_is_valid
    (userId : jsstring) (answers : option JSON) (st : State)
    (prompt reply : jsstring) (w1 w2 : World) (now : N) :
  isEmpty userId = false ->
  answersCounted answers = true ->
  promptText (arrayItems answers) = Some prompt ->
  generateContent [textPart prompt] (world st) = (GenOk reply, w1) ->
  JSON_parse (stripFences reply) = Some (JArr []) ->
  currentTime w1 = (now, w2) ->
  match fst (storeFault w2) with
  | None =>
      let written := findOneAndUpdate userId [] now (routines st) in
      fst (generate (Some userId) answers st)
      = RoutineSuccess [] (createdAt (fst written)) now
      /\ routines (snd (generate (Some userId) answers st)) = snd written
      /\ In (fst written) (docsOf userId (snd written))
      /\ routine (fst written) = []
  | Some e =>
      fst (generate (Some userId) answers st) = SaveFailure e
      /\ routines (snd (generate (Some userId) answers st)) = routines st
  end.
Proof.
  intros Hid Ha Hpr Hg Hp Hc.
  destruct (findOneAndUpdate_result userId [] now (routines st))
    as (_ & Hr & Hu & _ & Hd & _).
  unfold generate. cbn [truthyText]. rewrite Hid. cbn [negb].
  rewrite (answersCounted_passes _ Ha), Hpr.
  unfold bind, callModel. rewrite Hg.
  unfold parseRoutine, parseTasks. rewrite Hp. cbn [forallb map].
  unfold newDate, storeCheck, upsertRoutine, ret. cbn.
  rewrite Hc. cbn. destruct (storeFault w2) as [[e|] w3]; cbn.
  - split; reflexivity.
  - destruct (findOneAndUpdate userId [] now (routines st)) as [d c] eqn:W.
    cbn in *. rewrite Hr, Hu, Hd. repeat split. left. reflexivity.
Qed.

End ServerFacts.

(** ** The statements on the scripted runtime *)

Lemma out_of_domain_stops_before_generation_witness :
  (fst (chat (Some capitalQuestion) offTopic) = OutOfDomain
   /\ calls (snd (chat (Some capitalQuestion) offTopic))
      = calls offTopic ++ [classifierCall capitalQuestion])
  /\ (fst (chatWithImage (Some capitalQuestion) (Some photo) offTopic) = OutOfDomain
      /\ calls (snd (chatWithImage (Some capitalQuestion) (Some photo) offTopic))
         = calls offTopic ++ [classifierCall capitalQuestion]).
Proof.
  apply (@out_of_domain_stops_before_generation scripted capitalQuestion
           (Some photo) offTopic); vm_compute; reflexivity.
Defined.

(** C6, counterexample.  Ten numbers are not a sequence of ten strings,
    yet the request is not answered with the answer-count error: the
    prompt goes to the model and its routine is stored. *)
Lemma ten_numbers_reach_the_model :
  answersWellFormed tenNumbers = false
  /\ fst (generate (Some (js "user-1")) tenNumbers
            (scriptedState [GenOk jsonWakeDrink]))
     = RoutineSuccess [js "Wake at 7am"; js "Drink water"]
         1762041600000 1762041600000
  /\ fst (generate (Some (js "user-1")) tenNumbers
            (scriptedState [GenOk jsonWakeDrink]))
     <> AnswerCountMismatch
  /\ List.length (calls (snd (generate (Some (js "user-1")) tenNumbers
                                 (scriptedState [GenOk jsonWakeDrink]))))
     = 1%nat.
Proof. vm_compute. repeat split; discriminate. Qed.

(** Without a user id the refusal names the user id, also when the
    answers are miscounted. *)
Example nine_answers_without_user :
  answersWellFormed nineStrings = false
  /\ generate None nineStrings (scriptedState [])
     = (MissingUserId, scriptedState [])
  /\ MissingUserId <> AnswerCountMismatch.
Proof. vm_compute. repeat split; discriminate. Qed.

Lemma generate_rejects_miscounted_answers_witness :
  isEmpty (js "user-1") = false
  /\ answersCounted nineStrings = false
  /\ generate (Some (js "user-1")) nineStrings (scriptedState [])
     = (AnswerCountMismatch, scriptedState []).
Proof.
  split; [reflexivity|]. split; [reflexivity|].
  apply (@generate_rejects_miscounted_answers scripted); reflexivity.
Defined.


(** The two refused shapes of the specification, sent bare: the route
    answers with the malformed-output error. *)
Example generate_refuses_object_and_mixed_array :
  fst (generate (Some (js "user-1")) tenStrings
         (scriptedState [GenOk jsonObjectA1])) = MalformedRoutineOutput
  /\ fst (generate (Some (js "user-1")) tenStrings
            (scriptedState [GenOk jsonXand2])) = MalformedRoutineOutput.
Proof. vm_compute. split; reflexivity. Qed.

(** The examples of the specification for the strict parse. *)
Example parseRoutine_examples :
  @parseRoutine scripted fencedWakeDrink
  = Some [js "Wake at 7am"; js "Drink water"]
  /\ @parseRoutine scripted jsonWakeDrink
     = Some [js "Wake at 7am"; js "Drink water"]
  /\ @parseRoutine scripted jsonObjectA1 = None
  /\ @parseRoutine scripted jsonXand2 = None.
Proof. vm_compute. repeat split; reflexivity. Qed.

Lemma upsert_twice_keeps_one_document_witness :
  Upserted []
  /\ docsOf (js "user-1")
       (snd (findOneAndUpdate (js "user-1") [js "Drink water"] 1762041660000
               (snd (findOneAndUpdate (js "user-1") [js "Wake at 7am"]
                       1762041600000 []))))
     = [ {| userId := js "user-1"; routine := [js "Drink water"];
            createdAt := 1762041600000; updatedAt := 1762041660000 |} ].
Proof.
  split; [exact Upserted_empty|].
  exact (proj1 (upsert_twice_keeps_one_document (js "user-1")
                  [js "Wake at 7am"] [js "Drink water"]
                  1762041600000 1762041660000 [] Upserted_empty)).
Defined.

Lemma image_only_request_skips_the_gate_witness :
  truthyText None = false
  /\ calls (snd (chatWithImage None (Some photo) (withPhoto (scriptedState []))))
     = [[textPart imagePrompt;
         {| text := None;
            inlineData := Some (js "iVBORw==", js "image/png") |}]].
Proof.
  assert (H1 : truthyText None = false) by reflexivity.
  split; [exact H1|].
  exact (proj1 (@image_only_request_skips_the_gate scripted None photo
                  (withPhoto (scriptedState [])) H1)).
Defined.

(** C9, counterexample.  The uploaded file is gone when the handler
    reads it: the request ends with the image-processing failure and the
    model has not been called. *)
Lemma unreadable_image_is_not_generated :
  fst (chatWithImage None (Some photo) (scriptedState [GenOk (js "A photo.")]))
  = ImageProcessingFailure
  /\ calls (snd (chatWithImage None (Some photo)
                   (scriptedState [GenOk (js "A photo.")]))) = [].
Proof. vm_compute. split; reflexivity. Qed.

Lemma empty_routine_is_valid_witness :
  fst (generate (Some (js "user-1")) tenStrings
         (scriptedState [GenOk (js "[]")]))
  = RoutineSuccess [] 1762041600000 1762041600000.
Proof.
  refine (proj1 (@empty_routine_is_valid scripted (js "user-1") tenStrings
                   (scriptedState [GenOk (js "[]")])
                   (match @promptText scripted (arrayItems tenStrings) with
                    | Some prompt => prompt
                    | None => []
                    end)
                   (js "[]")
                   {| replies := []; clock := 1762041600000; outage := None |}
                   {| replies := []; clock := 1762041600001; outage := None |}
                   1762041600000 _ _ _ _ _ _)); reflexivity.
Defined.

(** C10, counterexample.  The reply is the empty array and the store is
    out: the response is an error, and nothing is stored. *)
Lemma empty_routine_with_the_store_out :
  @parseRoutine scripted (js "[]") = Some []
  /\ fst (generate (Some (js "user-1")) tenStrings
            (storeOutState [GenOk (js "[]")]))
     = SaveFailure (js "connection lost")
  /\ routines (snd (generate (Some (js "user-1")) tenStrings
                      (storeOutState [GenOk (js "[]")]))) = [].
Proof. vm_compute. repeat split; reflexivity. Qed.

(** ** Further properties of the clean-up *)

Section NormalizerLines.

Lemma points_per_line (text : jsstring) :
  points text = flat_map pointOf (split 10 text).
Proof.
  unfold points. induction (split 10 text) as [|l ls IH]; [reflexivity|].
  cbn [filter map flat_map]. unfold pointOf at 1.
  destruct (isEmpty (trim l)); cbn [negb]; [exact IH|].
  cbn [map filter].
  destruct (negb (isEmpty (cleanPoint l)) && negb (matchesSeparator (cleanPoint l)));
    cbn [andb filter]; [|exact IH].
  destruct (longEnough (cleanPoint l)); cbn [app]; rewrite IH; reflexivity.
Qed.

Lemma split_nonempty (s : jsstring) : split 10 s <> [].
Proof.
  destruct s as [|c t]; simpl; [discriminate|].
  destruct (c =? 10); [discriminate|]. destruct (split 10 t); discriminate.
Qed.

Lemma split_app_nl (a b : jsstring) :
  split 10 (a ++ nl ++ b) = split 10 a ++ split 10 b.
Proof.
  induction a as [|c t IH]; [reflexivity|].
  cbn [app split]. rewrite IH. destruct (c =? 10); [reflexivity|].
  destruct (split 10 t) as [|l ls] eqn:E; [|reflexivity].
  exfalso. exact (split_nonempty t E).
Qed.

(** X1.  The clean-up works line by line: the points of two texts joined
    by a line break are the points of the first followed by the points of
    the second. *)
Theorem points_of_joined_texts (a b : jsstring) :
  points (a ++ nl ++ b) = points a ++ points b.
Proof.
  rewrite !points_per_line, split_app_nl. apply flat_map_app.
Qed.

Lemma split_all_ws (text : jsstring) :
  allWhiteSpace text = true ->
  Forall (fun l => allWhiteSpace l = true) (split 10 text).
Proof.
  induction text as [|c t IH]; intros H; [repeat constructor|].
  cbn in H. apply andb_true_iff in H as [Hc Ht]. specialize (IH Ht).
  cbn [split]. destruct (c =? 10); [constructor; [reflexivity|exact IH]|].
  destruct (split 10 t) as [|l ls]; [repeat constructor; cbn; rewrite Hc; reflexivity|].
  inversion IH as [|? ? Hl Hls]; subst. constructor; [|exact Hls].
  cbn. rewrite Hc. exact Hl.
Qed.

(** X2.  A text of white space only, the empty text included, has no
    points. *)
Theorem points_of_blank_text (text : jsstring) :
  allWhiteSpace text = true -> points text = [].
Proof.
  intros H. rewrite points_per_line.
  pose proof (split_all_ws text H) as Hall.
  induction Hall as [|l ls Hl _ IH]; [reflexivity|].
  cbn [flat_map]. unfold pointOf. rewrite (trim_all_ws l Hl). exact IH.
Qed.

Lemma points_of_blank_text_witness :
  allWhiteSpace (js "  " ++ [13; 10; 9]) = true
  /\ points (js "  " ++ [13; 10; 9]) = [].
Proof.
  split; [reflexivity|]. apply points_of_blank_text. reflexivity.
Defined.

Lemma allWhiteSpace_app (a b : jsstring) :
  allWhiteSpace (a ++ b) = allWhiteSpace a && allWhiteSpace b.
Proof. apply forallb_app. Qed.

Lemma trim_app_ws (y ws : jsstring) :
  allWhiteSpace ws = true -> trim (y ++ ws) = trim y.
Proof.
  intros H. destruct (allWhiteSpace y) eqn:E.
  - rewrite (trim_all_ws y E). apply trim_all_ws.
    unfold allWhiteSpace in *. rewrite forallb_app, E, H. reflexivity.
  - unfold trim. rewrite trimStart_app_kept
      by (intros H0; apply trimStart_nil in H0; congruence).
    apply trimEnd_app_ws, H.
Qed.

Lemma emphasis_passes : passesTrailingSpace removeStars.
Proof.
  intros x ws H. exists ws. split; [exact H|].
  unfold removeStars. rewrite filter_app. f_equal.
  clear x. induction ws as [|c t IH]; [reflexivity|].
  cbn in H. apply andb_true_iff in H as [Hc Ht]. cbn [filter].
  destruct (c =? star) eqn:E; [apply N.eqb_eq in E; subst c; discriminate|].
  cbn [negb]. f_equal. auto.
Qed.

Lemma trimStart_passes : passesTrailingSpace trimStart.
Proof.
  intros x ws H. destruct (allWhiteSpace x) eqn:E.
  - exists []. split; [reflexivity|].
    rewrite (trimStart_all_ws x E), trimStart_all_ws; [reflexivity|].
    unfold allWhiteSpace in *. rewrite forallb_app, E, H. reflexivity.
  - exists ws. split; [exact H|]. apply trimStart_app_kept.
    intros H0. apply trimStart_nil in H0. congruence.
Qed.

Lemma bullet_passes : passesTrailingSpace removeBullet.
Proof.
  intros x ws H. destruct x as [|c t].
  - exists ws. split; [exact H|]. destruct ws as [|w ws']; [reflexivity|].
    cbn in H. apply andb_true_iff in H as [Hw _]. cbn [app removeBullet].
    assert (Hb : isBulletChar w = false).
    { unfold isBulletChar.
      destruct (w =? dash) eqn:E1; [apply N.eqb_eq in E1; subst; discriminate|].
      destruct (w =? bullet) eqn:E2; [apply N.eqb_eq in E2; subst; discriminate|].
      destruct (w =? star) eqn:E3; [apply N.eqb_eq in E3; subst; discriminate|].
      reflexivity. }
    rewrite Hb. reflexivity.
  - cbn [app removeBullet]. destruct (isBulletChar c).
    + apply trimStart_passes, H.
    + exists ws. auto.
Qed.

Lemma dropHashes_app_ws (t ws : jsstring) :
  allWhiteSpace ws = true -> dropHashes (t ++ ws) = dropHashes t ++ ws.
Proof.
  intros H. induction t as [|c t IH].
  - destruct ws as [|w ws']; [reflexivity|].
    cbn in H. apply andb_true_iff in H as [Hw _]. cbn [app dropHashes].
    destruct (w =? hash) eqn:E; [apply N.eqb_eq in E; subst; discriminate|].
    reflexivity.
  - cbn [app dropHashes]. destruct (c =? hash); [exact IH|reflexivity].
Qed.

Lemma heading_passes : passesTrailingSpace removeHeader.
Proof.
  intros x ws H. destruct x as [|c t].
  - exists ws. split; [exact H|]. destruct ws as [|w ws']; [reflexivity|].
    cbn in H. apply andb_true_iff in H as [Hw _]. cbn [app removeHeader].
    destruct (w =? hash) eqn:E; [apply N.eqb_eq in E; subst; discriminate|].
    reflexivity.
  - cbn [app removeHeader]. destruct (c =? hash).
    + rewrite dropHashes_app_ws by exact H. apply trimStart_passes, H.
    + exists ws. auto.
Qed.

Lemma normalizeSpaces_run (ws : jsstring) :
  allWhiteSpace ws = true -> ws <> [] -> normalizeSpaces ws = [space].
Proof.
  induction ws as [|c t IH]; [congruence|]. intros H _.
  cbn in H. apply andb_true_iff in H as [Hc Ht].
  cbn [normalizeSpaces]. rewrite Hc. destruct t as [|d t']; [reflexivity|].
  assert (Hd : isWhiteSpace d = true)
    by (cbn in Ht; apply andb_true_iff in Ht; tauto).
  rewrite Hd. apply IH; [exact Ht|discriminate].
Qed.

Lemma normalizeSpaces_passes : passesTrailingSpace normalizeSpaces.
Proof.
  intros x ws H. induction x as [|c t IH].
  - destruct ws as [|w ws'] eqn:E; [exists []; auto|].
    exists [space]. split; [reflexivity|].
    rewrite <- E in *. cbn [app]. apply normalizeSpaces_run; [exact H|].
    subst ws. discriminate.
  - destruct IH as (ws' & Hws' & IH).
    destruct (isWhiteSpace c) eqn:Hc.
    + destruct t as [|d t'].
      * destruct ws as [|w ws1].
        -- exists []. split; [reflexivity|]. rewrite !app_nil_r. reflexivity.
        -- exists []. split; [reflexivity|].
           assert (Hw : isWhiteSpace w = true)
             by (cbn in H; apply andb_true_iff in H; tauto).
           change (normalizeSpaces ([c] ++ w :: ws1))
             with (if isWhiteSpace c
                   then if isWhiteSpace w then normalizeSpaces (w :: ws1)
                        else space :: normalizeSpaces (w :: ws1)
                   else c :: normalizeSpaces (w :: ws1)).
           change (normalizeSpaces [c])
             with (if isWhiteSpace c then [space] else [c]).
           rewrite Hc, Hw. cbn [app].
           apply normalizeSpaces_run; [exact H|discriminate].
      * exists ws'. split; [exact Hws'|].
        cbn [app]. cbn [app] in IH.
        change (normalizeSpaces (c :: d :: t' ++ ws))
          with (if isWhiteSpace c
                then if isWhiteSpace d then normalizeSpaces (d :: t' ++ ws)
                     else space :: normalizeSpaces (d :: t' ++ ws)
                else c :: normalizeSpaces (d :: t' ++ ws)).
        change (normalizeSpaces (c :: d :: t'))
          with (if isWhiteSpace c
                then if isWhiteSpace d then normalizeSpaces (d :: t')
                     else space :: normalizeSpaces (d :: t')
                else c :: normalizeSpaces (d :: t')).
        rewrite Hc, IH. destruct (isWhiteSpace d); reflexivity.
    + exists ws'. split; [exact Hws'|].
      cbn [app normalizeSpaces]. rewrite Hc, IH. reflexivity.
Qed.

(** White space at the end of a line does not reach the point. *)
Lemma cleanPoint_app_ws (l ws : jsstring) :
  allWhiteSpace ws = true -> cleanPoint (l ++ ws) = cleanPoint l.
Proof.
  intros H. rewrite !cleanPoint_cleanFused. unfold cleanFused.
  destruct (emphasis_passes l ws H) as (w1 & H1 & ->).
  destruct (bullet_passes (removeStars l) w1 H1) as (w2 & H2 & ->).
  destruct (heading_passes (removeBullet (removeStars l)) w2 H2)
    as (w3 & H3 & ->).
  destruct (normalizeSpaces_passes
              (removeHeader (removeBullet (removeStars l)))
              w3 H3) as (w4 & H4 & ->).
  apply trim_app_ws, H4.
Qed.

Lemma pointOf_app_ws (l ws : jsstring) :
  allWhiteSpace ws = true -> pointOf (l ++ ws) = pointOf l.
Proof.
  intros H. unfold pointOf.
  rewrite trim_app_ws, cleanPoint_app_ws by exact H. reflexivity.
Qed.

Lemma split_app_char (a : jsstring) (w : N) :
  (w =? 10) = false ->
  split 10 (a ++ [w]) = mapLast (fun l => l ++ [w]) (split 10 a).
Proof.
  intros Hw. induction a as [|c t IH]; [cbn; rewrite Hw; reflexivity|].
  cbn [app split]. rewrite IH.
  pose proof (split_nonempty t) as Hne.
  destruct (c =? 10).
  - destruct (split 10 t) as [|l ls]; [congruence|]. reflexivity.
  - destruct (split 10 t) as [|l [|l' ls]]; [congruence|reflexivity|reflexivity].
Qed.

Lemma flat_map_mapLast {A B : Type} (h : A -> list B) (g : A -> A) (l : list A) :
  (forall x, h (g x) = h x) -> flat_map h (mapLast g l) = flat_map h l.
Proof.
  intros H. induction l as [|x [|y rest] IH]; [reflexivity| |].
  - cbn. rewrite H. reflexivity.
  - change (mapLast g (x :: y :: rest)) with (x :: mapLast g (y :: rest)).
    cbn [flat_map]. rewrite IH. reflexivity.
Qed.

Lemma points_app_ws (ws a : jsstring) :
  allWhiteSpace ws = true -> points (a ++ ws) = points a.
Proof.
  revert a. induction ws as [|w ws IH]; intros a H; [rewrite app_nil_r; reflexivity|].
  cbn in H. apply andb_true_iff in H as [Hw Hws].
  replace (a ++ w :: ws) with ((a ++ [w]) ++ ws)
    by (rewrite <- app_assoc; reflexivity).
  rewrite (IH _ Hws). destruct (w =? 10) eqn:E.
  - apply N.eqb_eq in E. subst w.
    change (a ++ [10]) with (a ++ nl ++ []).
    rewrite points_of_joined_texts. apply app_nil_r.
  - rewrite !points_per_line, split_app_char by exact E.
    apply flat_map_mapLast. intros l. apply pointOf_app_ws.
    cbn. rewrite Hw. reflexivity.
Qed.

(** X3.  White space at the end of a line, or of the text, changes
    nothing: in particular a text with CR LF line ends has the points of
    the same text with LF line ends. *)
Theorem points_ignore_trailing_space (a b ws : jsstring) :
  allWhiteSpace ws = true ->
  points (a ++ ws) = points a
  /\ points (a ++ ws ++ nl ++ b) = points (a ++ nl ++ b).
Proof.
  intros H. split; [apply points_app_ws, H|].
  replace (a ++ ws ++ nl ++ b) with ((a ++ ws) ++ nl ++ b)
    by (rewrite <- app_assoc; reflexivity).
  rewrite !points_of_joined_texts, points_app_ws by exact H. reflexivity.
Qed.

Lemma points_ignore_trailing_space_witness :
  allWhiteSpace [13] = true
  /\ points (js "Rest well tonight." ++ [13] ++ nl ++ js "Drink enough water.")
     = points (js "Rest well tonight." ++ nl ++ js "Drink enough water.").
Proof.
  split; [reflexivity|].
  apply (points_ignore_trailing_space (js "Rest well tonight.")
           (js "Drink enough water.") [13]). reflexivity.
Defined.

(** X4.  Every emitted point is free of asterisks and of line breaks, has
    no white space other than single spaces between its words, and
    neither begins nor ends with white space. *)
Theorem points_are_tidy (text p : jsstring) :
  In p (points text) ->
  noStar p = true /\ noNewline p = true /\ wsNormal p = true /\ trim p = p.
Proof.
  intros H. apply points_settled in H. destruct H as (H1 & H2 & H3 & _).
  repeat split; try assumption. apply wsNormal_no_newline, H2.
Qed.

Lemma points_are_tidy_witness :
  In (js "Triggers include stress") (points (js "- **Triggers** include stress"))
  /\ trim (js "Triggers include stress") = js "Triggers include stress".
Proof.
  assert (H : In (js "Triggers include stress")
                (points (js "- **Triggers** include stress")))
    by (vm_compute; left; reflexivity).
  split; [exact H|].
  exact (proj2 (proj2 (proj2 (points_are_tidy _ _ H)))).
Defined.

End NormalizerLines.

(** ** Further properties of the endpoints *)

Section EndpointFacts.

Context {R : Runtime}.

(** X5.  The text endpoint sends at most two requests to the model, the
    classifier's first and the query only after a true verdict; it sends
    none for a missing or empty message; and it touches neither the
    routine collection nor the uploads. *)
Theorem chat_requests_and_frame (message : option jsstring) (st : State) :
  let st' := snd (chat message st) in
  let m := textOf message in
  routines st' = routines st
  /\ uploads st' = uploads st
  /\ (truthyText message = false -> calls st' = calls st)
  /\ (truthyText message = true ->
      if fst (isHealthRelated m st)
      then calls st' = calls st ++ [classifierCall m; [textPart (queryPrompt m)]]
      else calls st' = calls st ++ [classifierCall m]).
Proof.
  cbv zeta. unfold chat, bind.
  destruct (truthyText message) eqn:Ht; cbn [negb].
  - pose proof (isHealthRelated_calls (textOf message) st) as (Hc & Hr & Hu).
    destruct (isHealthRelated (textOf message) st) as [b st1].
    cbn [fst snd] in *. destruct b; cbn [negb].
    + unfold callModel, newDate, ret.
      destruct (generateContent _ (world st1)) as [[reply|e] w]; cbn.
      * destruct (currentTime w) as [t w1]. cbn. rewrite Hc, <- app_assoc.
        repeat split; auto; discriminate.
      * rewrite Hc, <- app_assoc. repeat split; auto; discriminate.
    + cbn. repeat split; auto; discriminate.
  - cbn. repeat split; auto; discriminate.
Qed.

(** The reply from which a successful chat response was made. *)
Lemma chat_success_from_reply (message : option jsstring) (st : State)
    (pts : list jsstring) (t : N) :
  fst (chat message st) = ChatSuccess pts t -> exists reply, pts = points reply.
Proof.
  unfold chat, bind, callModel, newDate, ret, MissingMessage, OutOfDomain,
    GenerationFailure.
  destruct (truthyText message); cbn [negb]; [|discriminate].
  destruct (isHealthRelated (textOf message) st) as [[|] st1]; cbn [negb];
    [|discriminate].
  destruct (generateContent _ (world st1)) as [[reply|e] w]; [|discriminate].
  cbn -[points queryPrompt imagePrompt].
  destruct (currentTime w) as [t' w1]. cbn -[points].
  intros H0. inversion H0. eauto.
Qed.

Lemma chatWithImage_success_from_reply (userText : option jsstring)
    (imageFile : option File) (st : State) (pts : list jsstring) (t : N) :
  fst (chatWithImage userText imageFile st) = ChatSuccess pts t ->
  exists reply, pts = points reply.
Proof.
  unfold chatWithImage, bind, callModel, newDate, ret, cleanUp, unlinkIfExists,
    fileToGenerativePart, MissingInput, OutOfDomain, GenerationFailure,
    ImageProcessingFailure.
  destruct (negb (truthyText userText) && negb (hasFile imageFile));
    [discriminate|].
  destruct (if truthyText userText
            then isHealthRelated (textOf userText) else fun st0 => (true, st0))
    as [[|] st1] eqn:Eg; cbn [negb].
  - destruct imageFile as [f|].
    + destruct (readFile (path f) (uploads st1)); [|discriminate].
      destruct (generateContent _ (world st1)) as [[reply|e] w]; [|discriminate].
      cbn -[points queryPrompt imagePrompt].
      destruct (currentTime w) as [t' w1]. cbn -[points].
      intros H0. inversion H0. eauto.
    + destruct (generateContent _ (world st1)) as [[reply|e] w]; [|discriminate].
      cbn -[points queryPrompt imagePrompt].
      destruct (currentTime w) as [t' w1]. cbn -[points].
      intros H0. inversion H0. eauto.
  - destruct imageFile; discriminate.
Qed.

(** X6.  Whatever the model writes, a successful response of either chat
    endpoint carries only points of more than ten code units, without
    asterisks or line breaks, single-spaced and trimmed, none of which
    begins with [#] or [-]. *)
Theorem chat_responses_carry_tidy_points
    (message : option jsstring) (imageFile : option File) (st : State)
    (pts : list jsstring) (t : N) :
  fst (chat message st) = ChatSuccess pts t
  \/ fst (chatWithImage message imageFile st) = ChatSuccess pts t ->
  forall p, In p pts ->
    10 < N.of_nat (List.length p)
    /\ noStar p = true /\ noNewline p = true /\ wsNormal p = true
    /\ trim p = p
    /\ startsWith [hash] p = false /\ startsWith [dash] p = false.
Proof.
  intros H p Hp.
  assert (exists reply, pts = points reply) as [reply ->].
  { destruct H as [H|H];
      [eapply chat_success_from_reply|eapply chatWithImage_success_from_reply];
      exact H. }
  destruct (points_are_tidy _ _ Hp) as (H1 & H2 & H3 & H4).
  destruct (points_head_not_marker _ _ Hp) as (H5 & H6 & _).
  pose proof (points_longer_than_10 _ _ Hp). auto 10.
Qed.

(** X7.  Without an image the multimodal endpoint is the text endpoint:
    on every non-empty text the two give the same response and leave the
    same state. *)
Theorem chatWithImage_without_image (message : jsstring) (st : State) :
  isEmpty message = false ->
  chatWithImage (Some message) None st = chat (Some message) st.
Proof.
  intros H. unfold chatWithImage, chat, bind, cleanUp, ret.
  cbn [truthyText textOf hasFile]. rewrite H. cbn [negb andb].
  destruct (isHealthRelated message st) as [[|] st1]; cbn [negb]; [|reflexivity].
  cbn [setFirstText textPart text inlineData].
  destruct (callModel _ st1) as [[reply|e] st2]; [|reflexivity].
  destruct (newDate st2) as [t st3]. reflexivity.
Qed.

Lemma readFile_unlinked (p : jsstring) (files : list (jsstring * list N)) :
  readFile p (filter (fun e => negb (str_eqb (fst e) p)) files) = None.
Proof.
  induction files as [|[q bytes] rest IH]; [reflexivity|].
  cbn [filter fst]. destruct (str_eqb q p) eqn:E; cbn [negb]; [exact IH|].
  cbn [readFile]. rewrite E. exact IH.
Qed.

Lemma readFile_unlinked_other (p q : jsstring) (files : list (jsstring * list N)) :
  q <> p ->
  readFile q (filter (fun e => negb (str_eqb (fst e) p)) files) = readFile q files.
Proof.
  intros Hq. induction files as [|[r bytes] rest IH]; [reflexivity|].
  cbn [filter fst]. destruct (str_eqb r p) eqn:E; cbn [negb readFile].
  - apply str_eqb_eq in E. subst r.
    destruct (str_eqb p q) eqn:E2; [apply str_eqb_eq in E2; congruence|exact IH].
  - rewrite IH. reflexivity.
Qed.

(** X8.  Whatever the outcome, a request that came with an image leaves
    no file at the path of its upload, and leaves every other file of the
    uploads directory as it was. *)
Theorem chatWithImage_releases_the_upload
    (userText : option jsstring) (f : File) (st : State) :
  let st' := snd (chatWithImage userText (Some f) st) in
  readFile (path f) (uploads st') = None
  /\ (forall q, q <> path f -> readFile q (uploads st') = readFile q (uploads st)).
Proof.
  cbv zeta. unfold chatWithImage, bind, ret, cleanUp, unlinkIfExists,
    fileToGenerativePart, callModel, newDate.
  cbn [hasFile negb andb]. rewrite andb_false_r.
  assert (Hg : uploads (snd ((if truthyText userText
                              then isHealthRelated (textOf userText)
                              else fun st0 => (true, st0)) st)) = uploads st).
  { destruct (truthyText userText); [|reflexivity].
    apply isHealthRelated_calls. }
  destruct ((if truthyText userText
             then isHealthRelated (textOf userText)
             else fun st0 => (true, st0)) st) as [[|] st1];
    cbn [snd] in Hg; cbn [negb].
  - destruct (readFile (path f) (uploads st1)); cbn.
    + destruct (generateContent _ (world st1)) as [[reply|e] w]; cbn.
      * destruct (currentTime w) as [t w1]. cbn. rewrite Hg.
        split; [apply readFile_unlinked|]. intros q Hq.
        apply readFile_unlinked_other, Hq.
      * rewrite Hg. split; [apply readFile_unlinked|]. intros q Hq.
        apply readFile_unlinked_other, Hq.
    + rewrite Hg. split; [apply readFile_unlinked|]. intros q Hq.
      apply readFile_unlinked_other, Hq.
  - cbn. rewrite Hg. split; [apply readFile_unlinked|]. intros q Hq.
    apply readFile_unlinked_other, Hq.
Qed.

(** X9.  A health question sent with a readable image makes two requests:
    the classifier's, then one whose parts are the query wrapped in the
    instruction followed by the image. *)
Theorem chatWithImage_text_and_image
    (message : jsstring) (f : File) (bytes : list N) (st : State) :
  isEmpty message = false ->
  fst (isHealthRelated message st) = true ->
  readFile (path f) (uploads st) = Some bytes ->
  calls (snd (chatWithImage (Some message) (Some f) st))
  = calls st
    ++ [classifierCall message;
        [textPart (queryPrompt message);
         {| text := None; inlineData := Some (base64 bytes, mimetype f) |}]].
Proof.
  intros Hm Hv Hr.
  pose proof (isHealthRelated_calls message st) as (Hc & _ & Hu).
  unfold chatWithImage, bind, ret, cleanUp, unlinkIfExists,
    fileToGenerativePart, callModel, newDate.
  cbn [truthyText textOf hasFile]. rewrite Hm. cbn [negb andb].
  destruct (isHealthRelated message st) as [b st1]. cbn [fst snd] in *.
  subst b. cbn [negb]. rewrite Hu, Hr.
  cbn [app setFirstText textPart text inlineData].
  destruct (generateContent _ (world st1)) as [[reply|e] w]; cbn.
  - destruct (currentTime w) as [t w1]. cbn. rewrite Hc, <- app_assoc. reflexivity.
  - rewrite Hc, <- app_assoc. reflexivity.
Qed.

(** X18.  The multimodal endpoint never writes to the routine collection
    and sends at most two requests to the model; when the request has a
    text the first of them is the classifier's, and when it has neither
    text nor image it is refused without any request. *)
Theorem chatWithImage_requests_and_frame
    (userText : option jsstring) (imageFile : option File) (st : State) :
  let st' := snd (chatWithImage userText imageFile st) in
  routines st' = routines st
  /\ (exists sent,
        calls st' = calls st ++ sent
        /\ (List.length sent <= 2)%nat
        /\ (truthyText userText = true ->
            exists rest, sent = classifierCall (textOf userText) :: rest))
  /\ (truthyText userText = false -> imageFile = None ->
      chatWithImage userText imageFile st = (MissingInput, st)).
Proof.
  cbv zeta. split; [|split].
  - unfold chatWithImage, bind, ret, cleanUp, unlinkIfExists,
      fileToGenerativePart, callModel, newDate.
    destruct (negb (truthyText userText) && negb (hasFile imageFile));
      [reflexivity|].
    assert (Hg : routines (snd ((if truthyText userText
                                 then isHealthRelated (textOf userText)
                                 else fun st0 => (true, st0)) st))
                 = routines st).
    { destruct (truthyText userText); [|reflexivity].
      apply isHealthRelated_calls. }
    destruct ((if truthyText userText
               then isHealthRelated (textOf userText)
               else fun st0 => (true, st0)) st) as [[|] st1];
      cbn [snd] in Hg; cbn [negb].
    + destruct imageFile as [f|].
      * destruct (readFile (path f) (uploads st1));
          cbn -[queryPrompt imagePrompt points]; [|exact Hg].
        destruct (generateContent _ (world st1)) as [[reply|e] w];
          cbn -[queryPrompt imagePrompt points]; [|exact Hg].
        destruct (currentTime w) as [t w1]. exact Hg.
      * cbn -[queryPrompt imagePrompt points].
        destruct (generateContent _ (world st1)) as [[reply|e] w];
          cbn -[queryPrompt imagePrompt points]; [|exact Hg].
        destruct (currentTime w) as [t w1]. exact Hg.
    + destruct imageFile; exact Hg.
  - unfold chatWithImage, bind, ret, cleanUp, unlinkIfExists,
      fileToGenerativePart, callModel, newDate.
    destruct (negb (truthyText userText) && negb (hasFile imageFile)) eqn:Em.
    { exists []. rewrite app_nil_r. repeat split; [cbn; lia|].
      intros Ht. rewrite Ht in Em. discriminate. }
    assert (Hg : exists pre,
               calls (snd ((if truthyText userText
                            then isHealthRelated (textOf userText)
                            else fun st0 => (true, st0)) st))
               = calls st ++ pre
               /\ (List.length pre <= 1)%nat
               /\ (truthyText userText = true ->
                   pre = [classifierCall (textOf userText)])).
    { destruct (truthyText userText).
      - exists [classifierCall (textOf userText)].
        split; [apply isHealthRelated_calls|]. split; [cbn; lia|auto].
      - exists []. rewrite app_nil_r. split; [reflexivity|].
        split; [cbn; lia|discriminate]. }
    destruct Hg as (pre & Hc & Hl & Hp).
    destruct ((if truthyText userText
               then isHealthRelated (textOf userText)
               else fun st0 => (true, st0)) st) as [[|] st1];
      cbn [snd] in Hc; cbn [negb].
    + assert (Hgen : forall parts,
                 exists sent,
                   calls st1 ++ [parts] = calls st ++ sent
                   /\ (List.length sent <= 2)%nat
                   /\ (truthyText userText = true ->
                       exists rest,
                         sent = classifierCall (textOf userText) :: rest)).
      { intros parts. exists (pre ++ [parts]).
        rewrite Hc, <- app_assoc. split; [reflexivity|].
        split; [rewrite length_app; cbn; lia|].
        intros Ht. rewrite (Hp Ht). cbn. eauto. }
      assert (Hnone : exists sent,
                 calls st1 = calls st ++ sent
                 /\ (List.length sent <= 2)%nat
                 /\ (truthyText userText = true ->
                     exists rest,
                       sent = classifierCall (textOf userText) :: rest)).
      { exists pre. split; [exact Hc|]. split; [lia|].
        intros Ht. rewrite (Hp Ht). eauto. }
      destruct imageFile as [f|].
      * destruct (readFile (path f) (uploads st1));
          cbn -[queryPrompt imagePrompt points]; [|exact Hnone].
        destruct (generateContent _ (world st1)) as [[reply|e] w];
          cbn -[queryPrompt imagePrompt points]; [|apply Hgen].
        destruct (currentTime w) as [t w1]. apply Hgen.
      * cbn -[queryPrompt imagePrompt points].
        destruct (generateContent _ (world st1)) as [[reply|e] w];
          cbn -[queryPrompt imagePrompt points]; [|apply Hgen].
        destruct (currentTime w) as [t w1]. apply Hgen.
    + assert (Hnone : exists sent,
                 calls st1 = calls st ++ sent
                 /\ (List.length sent <= 2)%nat
                 /\ (truthyText userText = true ->
                     exists rest,
                       sent = classifierCall (textOf userText) :: rest)).
      { exists pre. split; [exact Hc|]. split; [lia|].
        intros Ht. rewrite (Hp Ht). eauto. }
      destruct imageFile; exact Hnone.
  - intros Ht ->. unfold chatWithImage. rewrite Ht. reflexivity.
Qed.

End EndpointFacts.

(** ** Further properties of the routine routes *)

Section RoutineFacts.

Context {R : Runtime}.

(** What a success of the generate route says about the write. *)
Lemma generate_success_inv (userId : option jsstring) (answers : option JSON)
    (st : State) (r : list jsstring) (c u : N) :
  fst (generate userId answers st) = RoutineSuccess r c u ->
  exists uid tasks now,
    userId = Some uid /\ isEmpty uid = false
    /\ routines (snd (generate userId answers st))
       = snd (findOneAndUpdate uid tasks now (routines st))
    /\ RoutineSuccess r c u
       = RoutineSuccess
           (routine (fst (findOneAndUpdate uid tasks now (routines st))))
           (createdAt (fst (findOneAndUpdate uid tasks now (routines st))))
           (updatedAt (fst (findOneAndUpdate uid tasks now (routines st)))).
Proof.
  unfold generate, bind, callModel, newDate, storeCheck, upsertRoutine, ret,
    MissingUserId, AnswerCountMismatch, RoutineGenerationFailure,
    MalformedRoutineOutput, SaveFailure.
  destruct userId as [uid|]; cbn [truthyText negb]; [|discriminate].
  destruct (isEmpty uid) eqn:Hu; cbn [negb]; [discriminate|].
  destruct (negb (truthy answers) || negb (isArray answers)
            || negb (Nat.eqb (List.length (arrayItems answers))
                             (List.length routineQuestions)));
    [discriminate|].
  destruct (promptText (arrayItems answers)) as [prompt|]; [|discriminate].
  destruct (generateContent _ (world st)) as [[reply|e] w]; [|discriminate].
  destruct (parseRoutine reply) as [tasks|]; [|discriminate].
  cbn -[promptText]. destruct (currentTime w) as [now w1]. cbn -[promptText].
  destruct (storeFault w1) as [[e|] w2]; cbn -[promptText]; [discriminate|].
  cbn [textOf].
  destruct (findOneAndUpdate uid tasks now (routines st)) as [d coll] eqn:F.
  cbn -[promptText]. intros H. exists uid, tasks, now. rewrite F. cbn. auto.
Qed.

(** X10.  The generate route writes to the collection only when it
    answers with a success: after any failure response the collection is
    as before.  It never touches the uploads, and it sends at most one
    request to the model, the routine prompt. *)
Theorem generate_writes_only_on_success
    (userId : option jsstring) (answers : option JSON) (st : State) :
  let st' := snd (generate userId answers st) in
  uploads st' = uploads st
  /\ (forall status e d,
        fst (generate userId answers st) = Failure status e d ->
        routines st' = routines st)
  /\ (calls st' = calls st
      \/ exists prompt,
           promptText (arrayItems answers) = Some prompt
           /\ calls st' = calls st ++ [[textPart prompt]]).
Proof.
  cbv zeta.
  unfold generate, bind, callModel, newDate, storeCheck, upsertRoutine, ret.
  destruct (negb (truthyText userId)); [cbn; auto|].
  destruct (negb (truthy answers) || negb (isArray answers)
            || negb (Nat.eqb (List.length (arrayItems answers))
                             (List.length routineQuestions)));
    [cbn; auto|].
  destruct (promptText (arrayItems answers)) as [prompt|]; [|cbn; auto].
  destruct (generateContent _ (world st)) as [[reply|e] w];
    [|cbn; eauto 6].
  destruct (parseRoutine reply) as [tasks|]; [|cbn; eauto 6].
  cbn. destruct (currentTime w) as [now w1]. cbn.
  destruct (storeFault w1) as [[e|] w2]; cbn; [eauto 6|].
  destruct (findOneAndUpdate (textOf userId) tasks now (routines st))
    as [d coll]. cbn.
  repeat split; [discriminate|eauto].
Qed.

(** X11.  The generate route keeps the collection one that upserts have
    written: whatever the request and the outcome, no user comes to have
    two routine documents. *)
Theorem generate_keeps_one_document_per_user
    (userId : option jsstring) (answers : option JSON) (st : State) :
  Upserted (routines st) ->
  Upserted (routines (snd (generate userId answers st)))
  /\ (forall who,
        (List.length (docsOf who (routines (snd (generate userId answers st))))
         <= 1)%nat).
Proof.
  intros H.
  assert (Hu : Upserted (routines (snd (generate userId answers st)))).
  { unfold generate, bind, callModel, newDate, storeCheck, upsertRoutine, ret.
    destruct (negb (truthyText userId)); [exact H|].
    destruct (negb (truthy answers) || negb (isArray answers)
              || negb (Nat.eqb (List.length (arrayItems answers))
                               (List.length routineQuestions)));
      [exact H|].
    destruct (promptText (arrayItems answers)) as [prompt|]; [|exact H].
    destruct (generateContent _ (world st)) as [[reply|e] w]; [|exact H].
    destruct (parseRoutine reply) as [tasks|]; [|exact H].
    cbn -[promptText]. destruct (currentTime w) as [now w1]. cbn -[promptText].
    destruct (storeFault w1) as [[e|] w2]; cbn -[promptText]; [exact H|].
    pose proof (Upserted_write (textOf userId) tasks now _ H) as Hw.
    destruct (findOneAndUpdate (textOf userId) tasks now (routines st))
      as [d coll]. exact Hw. }
  split; [exact Hu|]. intros who. apply Upserted_at_most_one, Hu.
Qed.

Lemma mostRecent_spec (docs : list RoutineDoc) :
  match mostRecent docs with
  | None => docs = []
  | Some d => In d docs /\ forall e, In e docs -> updatedAt e <= updatedAt d
  end.
Proof.
  induction docs as [|d rest IH]; [reflexivity|].
  cbn [mostRecent]. destruct (mostRecent rest) as [e|].
  - destruct IH as [He Hmax]. destruct (N.ltb_spec (updatedAt d) (updatedAt e)).
    + split; [right; exact He|]. intros x [<-|Hx]; [lia|auto].
    + split; [left; reflexivity|]. intros x [<-|Hx]; [lia|].
      specialize (Hmax x Hx). lia.
  - subst rest. split; [left; reflexivity|]. intros x [<-|[]]. lia.
Qed.

(** X12.  The current route only reads: it sends nothing to the model and
    leaves the collection and the uploads as they are.  With a user id
    and the store available, it answers not-found exactly when the user
    has no document, and otherwise with a document of that user than
    which none was updated later. *)
Theorem current_reads_the_latest (userId : option jsstring) (st : State) :
  (calls (snd (current userId st)) = calls st
   /\ routines (snd (current userId st)) = routines st
   /\ uploads (snd (current userId st)) = uploads st)
  /\ (forall uid,
        userId = Some uid -> isEmpty uid = false ->
        fst (storeFault (world st)) = None ->
        match docsOf uid (routines st) with
        | [] => fst (current userId st) = NotFound
        | _ :: _ =>
            exists d,
              In d (docsOf uid (routines st))
              /\ fst (current userId st)
                 = RoutineSuccess (routine d) (createdAt d) (updatedAt d)
              /\ (forall e, In e (docsOf uid (routines st)) ->
                    updatedAt e <= updatedAt d)
        end).
Proof.
  split.
  - unfold current, bind, storeCheck, ret.
    destruct (negb (truthyText userId)); [auto|].
    destruct (storeFault (world st)) as [[e|] w]; cbn -[findOneLatest]; [auto|].
    destruct (findOneLatest (textOf userId) (routines st)); cbn; auto.
  - intros uid -> Hu Hs. unfold current, bind, storeCheck, ret.
    cbn [truthyText textOf]. rewrite Hu. cbn [negb].
    destruct (storeFault (world st)) as [f w]. cbn [fst] in Hs. subst f.
    cbn -[docsOf mostRecent findOneLatest]. unfold findOneLatest.
    pose proof (mostRecent_spec (docsOf uid (routines st))) as Hm.
    destruct (mostRecent (docsOf uid (routines st))) as [d|].
    + destruct Hm as [Hd Hmax].
      destruct (docsOf uid (routines st)) as [|x xs] eqn:E; [destruct Hd|].
      exists d. cbn. auto.
    + rewrite Hm. reflexivity.
Qed.

(** X13.  What the generate route has stored, the current route reads
    back: on a collection that only upserts have written, and so holds
    at most one document per user, after a success for a user the current
    route answers with the same routine and the same two dates, as long
    as the collection has not been written since and the store is
    available. *)
Theorem generate_then_current
    (userId : option jsstring) (answers : option JSON) (st st2 : State)
    (r : list jsstring) (c u : N) :
  Upserted (routines st) ->
  fst (generate userId answers st) = RoutineSuccess r c u ->
  routines st2 = routines (snd (generate userId answers st)) ->
  fst (storeFault (world st2)) = None ->
  fst (current userId st2) = RoutineSuccess r c u.
Proof.
  intros Hup Hg Hr Hs.
  destruct (generate_success_inv _ _ _ _ _ _ Hg)
    as (uid & tasks & now & -> & Hu & Hw & ->).
  destruct (findOneAndUpdate_result uid tasks now (routines st))
    as (_ & _ & _ & _ & Hd & _).
  pose proof (Upserted_at_most_one _ uid Hup) as Hone.
  assert (E : docsOf uid (routines st2)
              = [fst (findOneAndUpdate uid tasks now (routines st))]).
  { rewrite Hr, Hw, Hd.
    destruct (docsOf uid (routines st)) as [|a [|b l]]; cbn in *;
      try reflexivity; lia. }
  unfold current, bind, storeCheck, ret. cbn [truthyText textOf].
  rewrite Hu. cbn [negb].
  destruct (storeFault (world st2)) as [f w]. cbn [fst] in Hs. subst f.
  cbn -[docsOf mostRecent findOneLatest]. unfold findOneLatest.
  rewrite E. reflexivity.
Qed.

Lemma answers_by_position {C : Type} (F : jsstring -> option JSON -> C)
    (qs : list jsstring) (answers before : list JSON) :
  List.length answers = List.length qs ->
  map (fun qi : nat * jsstring => F (snd qi) (nth_error (before ++ answers) (fst qi)))
    (combine (seq (List.length before) (List.length qs)) qs)
  = zipWith (fun q a => F q (Some a)) qs answers.
Proof.
  revert answers before. induction qs as [|q qs IH]; intros answers before Hl.
  - destruct answers; [reflexivity|discriminate].
  - destruct answers as [|a answers]; [discriminate|].
    cbn [List.length seq combine map zipWith fst snd]. f_equal.
    + rewrite nth_error_app2 by lia. rewrite Nat.sub_diag. reflexivity.
    + specialize (IH answers (before ++ [a])).
      rewrite <- app_assoc, length_app, Nat.add_1_r in IH.
      apply IH. cbn in Hl. lia.
Qed.

(** The template literal throws exactly on the unprintable values. *)
Lemma ToString_throws : forall v : JSON,
  ToString v = None <-> unprintable v = true.
Proof.
  fix IH 1. intros [|b|q|s|items|fields]; cbn [ToString unprintable].
  - split; discriminate.
  - destruct b; split; discriminate.
  - split; discriminate.
  - split; discriminate.
  - induction items as [|x rest IHl]; [cbn; split; discriminate|].
    cbn [map allSome existsb].
    assert (Hx : (match x with JNull => Some [] | _ => ToString x end) = None
                 <-> unprintable x = true).
    { pose proof (IH x) as IHx.
      destruct x; try exact IHx. cbn. split; discriminate. }
    destruct (match x with JNull => Some [] | _ => ToString x end) as [sx|].
    + destruct (unprintable x); [destruct Hx as [_ Hx]; discriminate (Hx eq_refl)|].
      cbn [orb]. rewrite <- IHl.
      destruct (allSome _); cbn; split; congruence.
    + rewrite (proj1 Hx eq_refl). cbn. split; reflexivity.
  - destruct (hasOwn (js "toString") fields); split; congruence.
Qed.

Lemma allSome_zip_throws {A : Type} (G : jsstring -> jsstring -> A)
    (qs : list jsstring) (answers : list JSON) :
  List.length answers = List.length qs ->
  allSome (zipWith (fun q a => option_map (G q) (ToString a)) qs answers) = None
  <-> existsb unprintable answers = true.
Proof.
  revert answers. induction qs as [|q qs IH]; intros [|a answers] Hl;
    try discriminate; [cbn; split; discriminate|].
  cbn [zipWith allSome existsb]. cbn in Hl.
  pose proof (ToString_throws a) as Ha.
  destruct (ToString a) as [sa|]; cbn [option_map].
  - destruct (unprintable a); [destruct Ha as [_ Ha]; discriminate (Ha eq_refl)|].
    cbn [orb]. rewrite <- (IH answers) by lia.
    destruct (allSome _); split; congruence.
  - rewrite (proj1 Ha eq_refl). split; reflexivity.
Qed.

Lemma option_map_none {A B : Type} (f : A -> B) (o : option A) :
  option_map f o = None <-> o = None.
Proof. destruct o; cbn; split; congruence. Qed.

(** The prompt cannot be written exactly when one of the answers cannot
    be printed. *)
Lemma promptText_throws (answers : list JSON) :
  List.length answers = List.length routineQuestions ->
  promptText answers = None <-> existsb unprintable answers = true.
Proof.
  intros H. unfold promptText, formattedAnswers.
  rewrite (answers_by_position
             (fun q a => option_map
                           (fun a0 => js "Q: " ++ q ++ nl ++ js "A: " ++ a0)
                           (ToStringOpt a))
             routineQuestions answers [] H).
  cbn [ToStringOpt].
  rewrite <- (allSome_zip_throws
                (fun q a0 => js "Q: " ++ q ++ nl ++ js "A: " ++ a0)
                routineQuestions answers H).
  rewrite !option_map_none. reflexivity.
Qed.

(** X14.  When one of the ten answers cannot be printed by the template
    literal of the prompt (an object with a key [toString] of its own,
    also inside an array), the generate route answers with the
    generation failure that carries the message of the [TypeError], sends
    nothing to the model and changes nothing; when all ten can be
    printed, exactly one request goes to the model, the routine
    prompt. *)
Theorem generate_refuses_unprintable_answers
    (userId : jsstring) (answers : option JSON) (st : State) :
  isEmpty userId = false ->
  answersCounted answers = true ->
  if existsb unprintable (arrayItems answers)
  then generate (Some userId) answers st
       = (RoutineGenerationFailure typeErrorMessage, st)
  else exists prompt,
         promptText (arrayItems answers) = Some prompt
         /\ calls (snd (generate (Some userId) answers st))
            = calls st ++ [[textPart prompt]].
Proof.
  intros Hu Ha.
  assert (Hl : List.length (arrayItems answers) = List.length routineQuestions).
  { destruct answers as [[| | | |items|]|]; try discriminate.
    cbn in Ha |- *. apply Nat.eqb_eq, Ha. }
  pose proof (promptText_throws _ Hl) as Hp.
  destruct (existsb unprintable (arrayItems answers)).
  - unfold generate. cbn [truthyText]. rewrite Hu. cbn [negb].
    rewrite (answersCounted_passes _ Ha), (proj2 Hp eq_refl). reflexivity.
  - destruct (promptText (arrayItems answers)) as [prompt|] eqn:E;
      [|destruct Hp as [Hp _]; discriminate (Hp eq_refl)].
    exists prompt. split; [reflexivity|].
    destruct answers as [[| | | |items|]|]; try discriminate.
    apply generate_accepts_ten_of_any_type; [exact Hu|exact Hl|exact E].
Qed.

Lemma trim_around_ws (a r b : jsstring) :
  allWhiteSpace a = true -> allWhiteSpace b = true ->
  trim (a ++ r ++ b) = trim r.
Proof.
  intros Ha Hb.
  replace (a ++ r ++ b) with ((a ++ r) ++ b) by (rewrite <- app_assoc; reflexivity).
  rewrite trim_app_ws by exact Hb.
  unfold trim. rewrite trimStart_app_ws by exact Ha. reflexivity.
Qed.

(** X15.  White space around the reply of the model, a final line break
    for instance, does not change what the routine parser makes of it. *)
Theorem parseRoutine_ignores_surrounding_space (a reply b : jsstring) :
  allWhiteSpace a = true -> allWhiteSpace b = true ->
  parseRoutine (a ++ reply ++ b) = parseRoutine reply.
Proof.
  intros Ha Hb. unfold parseRoutine, stripFences.
  rewrite trim_around_ws by assumption. reflexivity.
Qed.

End RoutineFacts.

(** ** The filter of the uploads *)

Section UploadFacts.

Lemma sameIgnoringCase_lower (p c : N) :
  lowerLetter p = true ->
  sameIgnoringCase p c = true
  <-> (if (65 <=? c) && (c <=? 90) then c + 32 else c) = p.
Proof.
  unfold lowerLetter, sameIgnoringCase, upperAscii. intros Hp.
  apply andb_true_iff in Hp as [H1 H2].
  apply N.leb_le in H1, H2.
  destruct (N.leb_spec 97 p); [|lia]. destruct (N.leb_spec p 122); [|lia].
  cbn [andb].
  destruct (N.leb_spec 65 c); destruct (N.leb_spec c 90);
    destruct (N.leb_spec 97 c); destruct (N.leb_spec c 122);
    destruct (N.ltb_spec c 128); cbn [andb];
    rewrite ?N.eqb_eq; split; intros; try discriminate; try lia.
Qed.

Lemma matchesToEnd_lower (e rest : jsstring) :
  forallb lowerLetter e = true ->
  matchesToEnd e rest = true <-> asciiLowerCase rest = e.
Proof.
  revert rest. induction e as [|p e IH]; intros rest He.
  - destruct rest; cbn; split; congruence.
  - cbn in He. apply andb_true_iff in He as [Hp He].
    destruct rest as [|c rest]; [cbn; split; discriminate|].
    cbn [matchesToEnd asciiLowerCase map].
    rewrite andb_true_iff, (sameIgnoringCase_lower p c Hp), (IH rest He).
    unfold asciiLowerCase. split; [intros [-> ->]; reflexivity|].
    intros [= -> ->]. auto.
Qed.

Lemma extensionHere_iff (s : jsstring) :
  extensionHere s = true
  <-> exists ext, s = 46 :: ext /\ In (asciiLowerCase ext) imageExtensions.
Proof.
  assert (Hlow : forall e, In e imageExtensions -> forallb lowerLetter e = true).
  { intros e He. cbn in He.
    destruct He as [<-|[<-|[<-|[<-|[]]]]]; reflexivity. }
  destruct s as [|c rest]; cbn [extensionHere].
  - split; [discriminate|]. intros (ext & H & _). discriminate.
  - rewrite andb_true_iff, N.eqb_eq, existsb_exists. split.
    + intros [-> (e & He & Hm)]. exists rest. split; [reflexivity|].
      apply (matchesToEnd_lower e rest (Hlow e He)) in Hm. rewrite Hm. exact He.
    + intros (ext & [= -> ->] & He). split; [reflexivity|].
      exists (asciiLowerCase ext). split; [exact He|].
      apply matchesToEnd_lower; [apply Hlow, He|reflexivity].
Qed.

Lemma matchesImageName_iff (s : jsstring) :
  matchesImageName s = true
  <-> exists stem ext,
        s = stem ++ [46] ++ ext /\ In (asciiLowerCase ext) imageExtensions.
Proof.
  induction s as [|c t IH].
  - cbn. split; [discriminate|].
    intros (stem & ext & H & _). destruct stem; discriminate.
  - change (matchesImageName (c :: t))
      with (extensionHere (c :: t) || matchesImageName t).
    rewrite orb_true_iff, extensionHere_iff, IH. split.
    + intros [(ext & -> & He)|(stem & ext & -> & He)].
      * exists [], ext. auto.
      * exists (c :: stem), ext. auto.
    + intros (stem & ext & H & He). destruct stem as [|c' stem].
      * left. exists ext. auto.
      * right. cbn in H. injection H as -> ->. exists stem, ext. auto.
Qed.

(** X16.  The filter of the uploads accepts a file exactly when its
    original name ends with a full stop followed by [jpg], [jpeg], [png]
    or [gif], in any mix of upper and lower case; every other name is
    refused with the only-images error. *)
Theorem fileFilter_accepts_image_names (originalname : jsstring) :
  (fileFilter originalname = None
   <-> exists stem ext,
         originalname = stem ++ [46] ++ ext
         /\ In (asciiLowerCase ext) imageExtensions)
  /\ (fileFilter originalname = None
      \/ fileFilter originalname = Some (js "Only image files are allowed!")).
Proof.
  unfold fileFilter. rewrite <- matchesImageName_iff.
  destruct (matchesImageName originalname); cbn [negb]; split; auto;
    split; congruence.
Qed.

Lemma noDot_image_extension (ext : jsstring) :
  In (asciiLowerCase ext) imageExtensions -> noDot ext = true.
Proof.
  intros H.
  assert (Hn : noDot (asciiLowerCase ext) = true).
  { cbn in H. destruct H as [<-|[<-|[<-|[<-|[]]]]]; reflexivity. }
  clear H. unfold noDot, asciiLowerCase in *.
  induction ext as [|c t IH]; [reflexivity|].
  cbn [map forallb] in Hn |- *. apply andb_true_iff in Hn as [Hc Ht].
  rewrite (IH Ht), andb_true_r.
  destruct (c =? 46) eqn:E; [|reflexivity].
  apply N.eqb_eq in E. subst c. discriminate.
Qed.

Lemma last_dot_unique (stem stem' ext ext' : jsstring) :
  noDot ext = true -> noDot ext' = true ->
  stem ++ [46] ++ ext = stem' ++ [46] ++ ext' -> ext = ext'.
Proof.
  intros He He'. revert stem'.
  assert (Hin : forall (x y z : jsstring), noDot x = true -> x = y ++ 46 :: z -> False).
  { intros x y z Hx ->. unfold noDot in Hx. rewrite forallb_app in Hx.
    apply andb_true_iff in Hx as [_ Hx]. cbn in Hx. discriminate. }
  induction stem as [|c t IH]; intros [|c' t'] H; cbn in H.
  - congruence.
  - injection H as _ H. exfalso. exact (Hin _ _ _ He H).
  - injection H as _ H. exfalso. symmetry in H. exact (Hin _ _ _ He' H).
  - injection H as _ H. exact (IH _ H).
Qed.

(** X17.  Only the last extension of the name counts: when what follows
    the last full stop is [ext], the file is accepted exactly when [ext]
    is one of the four image extensions, whatever comes before. *)
Theorem fileFilter_last_extension (stem ext : jsstring) :
  noDot ext = true ->
  fileFilter (stem ++ [46] ++ ext) = None
  <-> In (asciiLowerCase ext) imageExtensions.
Proof.
  intros Hn. rewrite (proj1 (fileFilter_accepts_image_names _)). split.
  - intros (stem' & ext' & H & He).
    rewrite (last_dot_unique _ _ _ _ Hn (noDot_image_extension _ He) H).
    exact He.
  - intros He. exists stem, ext. auto.
Qed.

Lemma fileFilter_last_extension_witness :
  noDot (js "PNG") = true
  /\ (fileFilter (js "scan.2024" ++ [46] ++ js "PNG") = None
      <-> In (asciiLowerCase (js "PNG")) imageExtensions).
Proof.
  split; [reflexivity|].
  apply (fileFilter_last_extension (js "scan.2024") (js "PNG")). reflexivity.
Defined.

(** A second extension hides the first. *)
Example fileFilter_double_extension :
  fileFilter (js "photo.png.exe") = Some (js "Only image files are allowed!")
  /\ fileFilter (js "photo.exe.JPeG") = None.
Proof. vm_compute. split; reflexivity. Qed.

End UploadFacts.

(** ** The further statements on the scripted runtime *)

Lemma chat_responses_carry_tidy_points_witness :
  fst (chat (Some migraineQuestion) onTopic)
  = ChatSuccess [js "Migraines are often triggered by stress."] 1762041600000
  /\ trim (js "Migraines are often triggered by stress.")
     = js "Migraines are often triggered by stress.".
Proof.
  assert (H : fst (chat (Some migraineQuestion) onTopic)
              = ChatSuccess [js "Migraines are often triggered by stress."]
                  1762041600000) by (vm_compute; reflexivity).
  split; [exact H|].
  pose proof (@chat_responses_carry_tidy_points scripted
                (Some migraineQuestion) None onTopic _ _ (or_introl H)
                (js "Migraines are often triggered by stress.")
                (or_introl eq_refl)) as T.
  exact (proj1 (proj2 (proj2 (proj2 (proj2 T))))).
Defined.

Lemma chatWithImage_without_image_witness :
  isEmpty migraineQuestion = false
  /\ chatWithImage (Some migraineQuestion) None onTopic
     = chat (Some migraineQuestion) onTopic.
Proof.
  split; [reflexivity|].
  apply (@chatWithImage_without_image scripted). reflexivity.
Defined.

Lemma chatWithImage_text_and_image_witness :
  calls (snd (chatWithImage (Some migraineQuestion) (Some photo)
                (withPhoto onTopic)))
  = [classifierCall migraineQuestion;
     [textPart (queryPrompt migraineQuestion);
      {| text := None; inlineData := Some (js "iVBORw==", js "image/png") |}]].
Proof.
  apply (@chatWithImage_text_and_image scripted migraineQuestion photo
           [137; 80; 78; 71] (withPhoto onTopic)); reflexivity.
Defined.

Lemma generate_keeps_one_document_per_user_witness :
  Upserted (routines (scriptedState [GenOk jsonWakeDrink]))
  /\ Upserted (routines (snd (generate (Some (js "user-1")) tenStrings
                                 (scriptedState [GenOk jsonWakeDrink])))).
Proof.
  split; [exact Upserted_empty|].
  exact (proj1 (@generate_keeps_one_document_per_user scripted
                  (Some (js "user-1")) tenStrings
                  (scriptedState [GenOk jsonWakeDrink]) Upserted_empty)).
Defined.

Lemma generate_then_current_witness :
  fst (current (Some (js "user-1"))
         (snd (generate (Some (js "user-1")) tenStrings
                 (scriptedState [GenOk jsonWakeDrink]))))
  = RoutineSuccess [js "Wake at 7am"; js "Drink water"]
      1762041600000 1762041600000.
Proof.
  apply (@generate_then_current scripted (Some (js "user-1")) tenStrings
           (scriptedState [GenOk jsonWakeDrink]));
    [exact Upserted_empty|vm_compute; reflexivity|reflexivity|reflexivity].
Defined.

Lemma generate_refuses_unprintable_answers_witness :
  answersCounted ownToString = true
  /\ @generate scripted (Some (js "user-1")) ownToString
       (scriptedState [GenOk (js "[]")])
     = (RoutineGenerationFailure (js "Cannot convert object to primitive value"),
        scriptedState [GenOk (js "[]")]).
Proof.
  split; [reflexivity|].
  apply (@generate_refuses_unprintable_answers scripted (js "user-1")
           ownToString (scriptedState [GenOk (js "[]")]));
    reflexivity.
Defined.

Lemma parseRoutine_ignores_surrounding_space_witness :
  allWhiteSpace nl = true
  /\ @parseRoutine scripted (nl ++ fencedWakeDrink ++ nl)
     = @parseRoutine scripted fencedWakeDrink.
Proof.
  split; [reflexivity|].
  apply (@parseRoutine_ignores_surrounding_space scripted); reflexivity.
Defined.
